(** * Accu_bot: the live user-data-stream connection manager

    A shallow embedding of [ui/static/binance_user_stream.js] (the second
    half of [src/ui/static/dashboard.js]) together with the indicator
    setter of [ui/static/app.js].

    The script is single threaded and event driven.  Its five module
    globals, the browser objects it creates (sockets, timers, requests in
    flight) and the two page elements it writes are gathered in one
    [World]; every function of the script is a function on worlds, and
    every callback the browser may run is a constructor of [Event]. *)

From Stdlib Require Import ZArith String Ascii List Bool Lia.
From Stdlib Require Import Floats.PrimFloat.
From stdpp Require Import base option gmap.

Import ListNotations.
Local Open Scope string_scope.
Set Warnings "-register-all,-inexact-float".

(** * The model *)

(** ** JavaScript values *)

(** Values produced by [JSON.parse]; numbers are IEEE 754 doubles.
    An object lists its own properties, each key once. *)
Inductive JValue : Type :=
| JNull
| JBool (b : bool)
| JNum (x : float)
| JStr (s : string)
| JArr (xs : list JValue)
| JObj (kvs : list (string * JValue)).

(** The result of a property read: [None] is [undefined]. *)
Definition JsVal := option JValue.

Inductive JsError := TypeError.

(** Completion of an expression or a handler: a value or a thrown error. *)
Inductive Completion (A : Type) : Type :=
| Normal (a : A)
| Throw (e : JsError).
Arguments Normal {A} a.
Arguments Throw {A} e.

#[global] Instance completion_ret : MRet Completion := fun A a => Normal a.

#[global] Instance completion_bind : MBind Completion := fun A B k c =>
  match c with
  | Normal a => k a
  | Throw e => Throw e
  end.

Fixpoint assoc (k : string) (kvs : list (string * JValue)) : JsVal :=
  match kvs with
  | [] => None
  | (k', v) :: rest => if String.eqb k k' then Some v else assoc k rest
  end.

(** [v.k] for the property names the script reads ([type], [msg],
    [connected], [phase], [env], [error], [data], [e], [eventType], [ok]):
    none of them is inherited by a string, a number, a boolean or an
    array, and reading any property of [null] is a TypeError. *)
Definition getProp (v : JValue) (k : string) : Completion JsVal :=
  match v with
  | JNull => Throw TypeError
  | JObj kvs => Normal (assoc k kvs)
  | _ => Normal None
  end.

(** [v?.k] *)
Definition getPropOpt (v : JValue) (k : string) : JsVal :=
  match v with
  | JObj kvs => assoc k kvs
  | _ => None
  end.

(** ToBoolean *)
Definition truthy (v : JsVal) : bool :=
  match v with
  | None => false
  | Some JNull => false
  | Some (JBool b) => b
  | Some (JNum x) => negb (is_zero x || is_nan x)
  | Some (JStr s) => negb (String.eqb s EmptyString)
  | Some (JArr _) => true
  | Some (JObj _) => true
  end.

(** [a || b] with [b] a value that is always defined *)
Definition or_else (a : JsVal) (b : JValue) : JValue :=
  match a with
  | Some v => if truthy a then v else b
  | None => b
  end.

(** [v === "s"] *)
Definition is_str (v : JsVal) (s : string) : bool :=
  match v with
  | Some (JStr s') => String.eqb s' s
  | _ => false
  end.

Definition has_key (k : string) (kvs : list (string * JValue)) : bool :=
  existsb (fun kv => String.eqb k (fst kv)) kvs.

(** Whether ToString returns on [v].  A plain object whose own [toString]
    property shadows [Object.prototype.toString] has no callable
    conversion left ([valueOf] gives the object back), which is a
    TypeError; an array joins the conversions of its elements, [null]
    elements giving the empty text. *)
Fixpoint printable (v : JValue) : bool :=
  match v with
  | JObj kvs => negb (has_key "toString" kvs)
  | JArr xs =>
      (fix all (l : list JValue) : bool :=
         match l with
         | [] => true
         | x :: l' => printable x && all l'
         end) xs
  | _ => true
  end.

(** ** Template literals and the log *)

(** A template literal is kept as its sequence of chunks: literal text and
    interpolated expressions, in source order. *)
Inductive Piece : Type :=
| Txt (s : string)              (* literal text, or an interpolated string variable *)
| Val (v : JValue)              (* [${v}], converted by ToString *)
| UriComponent (s : string)     (* [${encodeURIComponent(s)}] *)
| Rounded (x : float)           (* [${Math.round(x)}] *)
| Code (n : Z)                  (* [${ev.code}] *)
| JsonPrefix (v : JValue) (n : nat)  (* [${JSON.stringify(v).slice(0, n)}] *)
| Host.                         (* [${location.host}] *)

Definition Line := list Piece.

Definition piece_ok (p : Piece) : bool :=
  match p with
  | Val v => printable v
  | _ => true
  end.

(** Evaluating a template literal: a TypeError when an interpolated value
    has no string conversion. *)
Definition template (l : Line) : Completion Line :=
  if forallb piece_ok l then Normal l else Throw TypeError.

(** The double quote character of the close log line. *)
Definition dquote : string := String (ascii_of_nat 34) EmptyString.

(** ** Browser objects *)

Inductive ReadyState := CONNECTING | OPEN | CLOSING | CLOSED.

(** A socket made by [connectUserStreamWS env]: its four handlers close
    over [env], and stay attached for the life of the object. *)
Record Socket := mkSocket {
  readyState : ReadyState;
  sockEnv : string;
  sockSecure : bool             (* [location.protocol === "https:"] when it was made *)
}.

Inductive TimeoutCb :=
| CbReconnect (env : string)    (* [() => startBinanceUserStreamLive(env)] *)
| CbLoadBalances.               (* [() => loadBalances()] *)

(** [setTimeout] and [setInterval] share one table of active timers. *)
Inductive Timer :=
| Timeout (cb : TimeoutCb) (delay : float)
| Interval (env : string) (period : float).

Inductive Fetch :=
| StartFetch (env : string)      (* awaited by [startBinanceUserStreamLive] *)
| KeepaliveFetch (env : string). (* awaited by a keepalive tick *)

(** Outcome of [await fetch(..)] followed by [await res.json()]. *)
Inductive FetchOutcome :=
| Rejected                       (* network failure, or a body that is not JSON *)
| Body (data : JValue).

(** The class carried by the [exchangeStatus] dot: [green] is the
    indicator state ok, [red] is fail. *)
Inductive Indicator := pending | green | red.

Record CloseEvent := mkCloseEvent { code : Z; reason : string }.

(** Outcome of [JSON.parse(ev.data)] on a message event. *)
Inductive MessageData :=
| NotJson (raw : string)
| Json (msg : JValue).

(** ** The world *)

Record World := mkWorld {
  (* module globals *)
  _userStreamWS : option positive;
  _userStreamReconnectTimer : option positive;
  _reconnectDelayMs : float;
  _streamStartedOnce : bool;
  _keepaliveTimer : option positive;
  (* browser *)
  sockets : gmap positive Socket;
  timers : gmap positive Timer;
  fetches : gmap positive Fetch;
  nextId : positive;
  secure : bool;                 (* [location.protocol === "https:"] *)
  (* page: the [exchangeStatus] dot and the [wsLog] element *)
  connDot : Indicator;
  wsLog : list Line;
  (* observations: calls of [loadBalances], requests sent to the start endpoint *)
  balanceRefreshes : nat;
  starterCalls : nat
}.

Definition initial (sec : bool) : World :=
  {| _userStreamWS := None;
     _userStreamReconnectTimer := None;
     _reconnectDelayMs := 1500%float;
     _streamStartedOnce := false;
     _keepaliveTimer := None;
     sockets := ∅;
     timers := ∅;
     fetches := ∅;
     nextId := 1%positive;
     secure := sec;
     connDot := pending;
     wsLog := [];
     balanceRefreshes := 0;
     starterCalls := 0 |}.

(** ** Field updates *)

Definition with_ws (x : option positive) (w : World) : World :=
  mkWorld x (_userStreamReconnectTimer w) (_reconnectDelayMs w) (_streamStartedOnce w)
    (_keepaliveTimer w) (sockets w) (timers w) (fetches w) (nextId w) (secure w)
    (connDot w) (wsLog w) (balanceRefreshes w) (starterCalls w).

Definition with_reconnectTimer (x : option positive) (w : World) : World :=
  mkWorld (_userStreamWS w) x (_reconnectDelayMs w) (_streamStartedOnce w)
    (_keepaliveTimer w) (sockets w) (timers w) (fetches w) (nextId w) (secure w)
    (connDot w) (wsLog w) (balanceRefreshes w) (starterCalls w).

Definition with_delay (x : float) (w : World) : World :=
  mkWorld (_userStreamWS w) (_userStreamReconnectTimer w) x (_streamStartedOnce w)
    (_keepaliveTimer w) (sockets w) (timers w) (fetches w) (nextId w) (secure w)
    (connDot w) (wsLog w) (balanceRefreshes w) (starterCalls w).

Definition with_started (x : bool) (w : World) : World :=
  mkWorld (_userStreamWS w) (_userStreamReconnectTimer w) (_reconnectDelayMs w) x
    (_keepaliveTimer w) (sockets w) (timers w) (fetches w) (nextId w) (secure w)
    (connDot w) (wsLog w) (balanceRefreshes w) (starterCalls w).

Definition with_keepalive (x : option positive) (w : World) : World :=
  mkWorld (_userStreamWS w) (_userStreamReconnectTimer w) (_reconnectDelayMs w)
    (_streamStartedOnce w) x (sockets w) (timers w) (fetches w) (nextId w) (secure w)
    (connDot w) (wsLog w) (balanceRefreshes w) (starterCalls w).

Definition with_sockets (x : gmap positive Socket) (w : World) : World :=
  mkWorld (_userStreamWS w) (_userStreamReconnectTimer w) (_reconnectDelayMs w)
    (_streamStartedOnce w) (_keepaliveTimer w) x (timers w) (fetches w) (nextId w)
    (secure w) (connDot w) (wsLog w) (balanceRefreshes w) (starterCalls w).

Definition with_timers (x : gmap positive Timer) (w : World) : World :=
  mkWorld (_userStreamWS w) (_userStreamReconnectTimer w) (_reconnectDelayMs w)
    (_streamStartedOnce w) (_keepaliveTimer w) (sockets w) x (fetches w) (nextId w)
    (secure w) (connDot w) (wsLog w) (balanceRefreshes w) (starterCalls w).

Definition with_fetches (x : gmap positive Fetch) (w : World) : World :=
  mkWorld (_userStreamWS w) (_userStreamReconnectTimer w) (_reconnectDelayMs w)
    (_streamStartedOnce w) (_keepaliveTimer w) (sockets w) (timers w) x (nextId w)
    (secure w) (connDot w) (wsLog w) (balanceRefreshes w) (starterCalls w).

Definition with_nextId (x : positive) (w : World) : World :=
  mkWorld (_userStreamWS w) (_userStreamReconnectTimer w) (_reconnectDelayMs w)
    (_streamStartedOnce w) (_keepaliveTimer w) (sockets w) (timers w) (fetches w) x
    (secure w) (connDot w) (wsLog w) (balanceRefreshes w) (starterCalls w).

Definition with_connDot (x : Indicator) (w : World) : World :=
  mkWorld (_userStreamWS w) (_userStreamReconnectTimer w) (_reconnectDelayMs w)
    (_streamStartedOnce w) (_keepaliveTimer w) (sockets w) (timers w) (fetches w)
    (nextId w) (secure w) x (wsLog w) (balanceRefreshes w) (starterCalls w).

Definition with_wsLog (x : list Line) (w : World) : World :=
  mkWorld (_userStreamWS w) (_userStreamReconnectTimer w) (_reconnectDelayMs w)
    (_streamStartedOnce w) (_keepaliveTimer w) (sockets w) (timers w) (fetches w)
    (nextId w) (secure w) (connDot w) x (balanceRefreshes w) (starterCalls w).

Definition with_balanceRefreshes (x : nat) (w : World) : World :=
  mkWorld (_userStreamWS w) (_userStreamReconnectTimer w) (_reconnectDelayMs w)
    (_streamStartedOnce w) (_keepaliveTimer w) (sockets w) (timers w) (fetches w)
    (nextId w) (secure w) (connDot w) (wsLog w) x (starterCalls w).

Definition with_starterCalls (x : nat) (w : World) : World :=
  mkWorld (_userStreamWS w) (_userStreamReconnectTimer w) (_reconnectDelayMs w)
    (_streamStartedOnce w) (_keepaliveTimer w) (sockets w) (timers w) (fetches w)
    (nextId w) (secure w) (connDot w) (wsLog w) (balanceRefreshes w) x.

(** ** Browser primitives *)

(** [setTimeout(cb, delay)]: the new handle and the world holding the timer. *)
Definition setTimeout (cb : TimeoutCb) (delay : float) (w : World) : positive * World :=
  (nextId w,
   with_nextId (Pos.succ (nextId w))
     (with_timers (<[nextId w := Timeout cb delay]> (timers w)) w)).

Definition setInterval (env : string) (period : float) (w : World) : positive * World :=
  (nextId w,
   with_nextId (Pos.succ (nextId w))
     (with_timers (<[nextId w := Interval env period]> (timers w)) w)).

(** [clearTimeout(t)] and [clearInterval(t)] *)
Definition clearTimer (t : positive) (w : World) : World :=
  with_timers (delete t (timers w)) w.

(** [new WebSocket(url)] with the four handlers of [connectUserStreamWS env] *)
Definition newWebSocket (env : string) (w : World) : positive * World :=
  (nextId w,
   with_nextId (Pos.succ (nextId w))
     (with_sockets (<[nextId w := mkSocket CONNECTING env (secure w)]> (sockets w)) w)).

Definition close_state (r : ReadyState) : ReadyState :=
  match r with
  | CONNECTING | OPEN => CLOSING
  | CLOSING => CLOSING
  | CLOSED => CLOSED
  end.

(** [ws.close()]: starts the closing handshake of a socket that is
    connecting or open, does nothing otherwise, and never throws when
    called without arguments. *)
Definition ws_close (s : positive) (w : World) : World :=
  with_sockets
    (alter (fun k => mkSocket (close_state (readyState k)) (sockEnv k) (sockSecure k)) s
       (sockets w)) w.

(** [fetch(..)] whose result the caller awaits *)
Definition fetch (f : Fetch) (w : World) : World :=
  with_nextId (Pos.succ (nextId w))
    (with_fetches (<[nextId w := f]> (fetches w)) w).

(** [Math.min] on two doubles *)
Definition Math_min (a b : float) : float :=
  if is_nan a || is_nan b then nan
  else if (a <? b)%float then a
  else if (b <? a)%float then b
  else if get_sign a then a else b.

(** ** ui/static/app.js *)

(** [setConnDot(state)]: the dot drops its class and takes [green] for
    ok, [red] for fail and [pending] for anything else.  The dot and the
    log element are taken to be on the page, and [app.js] and
    [dashboard.js] to be loaded, so that the [typeof] guards around
    [setConnDot] and [loadBalances] pass. *)
Definition setConnDot (state : string) (w : World) : World :=
  with_connDot
    (if String.eqb state "ok" then green
     else if String.eqb state "fail" then red
     else pending) w.

(** ** ui/static/binance_user_stream.js *)

(** The log is most recent first; the time stamp put before each line is
    left out. *)
Definition appendWsLog (line : Line) (w : World) : World :=
  with_wsLog (line :: wsLog w) w.

Definition stopKeepalive (w : World) : World :=
  match _keepaliveTimer w with
  | Some t => with_keepalive None (clearTimer t w)
  | None => w
  end.

Definition keepalive_period : float := (25 * 60 * 1000)%float.

Definition startKeepalive (env : string) (w : World) : World :=
  let w := stopKeepalive w in
  let '(t, w) := setInterval env keepalive_period w in
  with_keepalive (Some t) w.

Definition fetch_failed (what : string) : Line := [Txt what; Txt "fetch_failed"].

(** The interval callback of [startKeepalive env], up to its [await]. *)
Definition keepalive_tick (env : string) (w : World) : World :=
  fetch (KeepaliveFetch env) w.

(** The same callback from the [await] on; both reads of [data] are
    optional chains and the whole body sits in a [try]. *)
Definition keepalive_resume (env : string) (r : FetchOutcome) (w : World) : World :=
  match r with
  | Rejected => appendWsLog (fetch_failed "Keepalive failed: ") w
  | Body data =>
      if truthy (getPropOpt data "ok")
      then appendWsLog [Txt "Keepalive OK ("; Txt env; Txt ")"] w
      else
        match template [Txt "Keepalive error: ";
                        Val (or_else (getPropOpt data "error") (JStr "unknown"))] with
        | Normal line => appendWsLog line w
        | Throw _ => appendWsLog (fetch_failed "Keepalive failed: ") w
        end
  end.

(** [ensureBinanceUserStreamStarted env] up to its [await]. *)
Definition ensureBinanceUserStreamStarted_call (env : string) (w : World) : World :=
  fetch (StartFetch env) (with_starterCalls (S (starterCalls w)) w).

(** The body of the [try] of [ensureBinanceUserStreamStarted] once [data]
    is there. *)
Definition ensureBinanceUserStreamStarted_try
    (env : string) (data : JValue) (w : World) : Completion (bool * World) :=
  o ← getProp data "ok";
  if truthy o
  then Normal (true, appendWsLog [Txt "User stream started ("; Txt env; Txt ")"] w)
  else
    err ← getProp data "error";
    line ← template [Txt "User stream start error: "; Val (or_else err (JStr "unknown"))];
    Normal (false, appendWsLog line w).

(** [ensureBinanceUserStreamStarted env] from the [await] on: the value it
    returns and the world it leaves. *)
Definition ensureBinanceUserStreamStarted_resume
    (env : string) (r : FetchOutcome) (w : World) : bool * World :=
  match r with
  | Rejected => (false, appendWsLog (fetch_failed "User stream start failed: ") w)
  | Body data =>
      match ensureBinanceUserStreamStarted_try env data w with
      | Normal res => res
      | Throw _ => (false, appendWsLog (fetch_failed "User stream start failed: ") w)
      end
  end.

Definition closeUserStreamWS (w : World) : World :=
  let w :=
    match _userStreamReconnectTimer w with
    | Some t => with_reconnectTimer None (clearTimer t w)
    | None => w
    end in
  match _userStreamWS w with
  | Some s => with_ws None (ws_close s w)
  | None => w
  end.

Definition ws_url (env : string) (sec : bool) : Line :=
  [Txt (if sec then "wss" else "ws"); Txt "://"; Host;
   Txt "/ws/binance/user-stream?env="; UriComponent env].

Definition connectUserStreamWS (env : string) (w : World) : World :=
  let w := closeUserStreamWS w in
  let w := setConnDot "pending" w in
  let w := appendWsLog (Txt "Connecting WS: " :: ws_url env (secure w)) w in
  let '(s, w) := newWebSocket env w in
  with_ws (Some s) w.

Definition onopen (w : World) : World :=
  let w := appendWsLog [Txt "WS connected"] w in
  with_delay 1500%float w.

Definition balance_event (eventType : JValue) : bool :=
  is_str (Some eventType) "outboundAccountPosition"
  || is_str (Some eventType) "balanceUpdate".

(** [msg.data || {}], then [data.e || data.eventType || "unknown_event"] *)
Definition eventType_of (msg : JValue) : Completion JValue :=
  d ← getProp msg "data";
  let data := or_else d (JObj []) in
  e ← getProp data "e";
  et ← getProp data "eventType";
  Normal (or_else e (or_else et (JStr "unknown_event"))).

Definition onmessage (env : string) (ev : MessageData) (w : World) : Completion World :=
  match ev with
  | NotJson raw =>
      Normal (appendWsLog [Txt "WS non-json: "; Txt (substring 0 200 raw)] w)
  | Json msg =>
      ty ← getProp msg "type";
      if is_str ty "hello" then
        m ← getProp msg "msg";
        line ← template [Txt "HELLO: "; Val (or_else m (JStr "ok"))];
        Normal (appendWsLog line w)
      else if is_str ty "status" then
        c ← getProp msg "connected";
        let connected := truthy c in
        ph ← getProp msg "phase";
        phase ← (if truthy ph
                 then template [Txt " ("; Val (or_else ph JNull); Txt ")"]
                 else Normal ([] : Line));
        e ← getProp msg "env";
        line ← template (app [Txt "Status: ";
                              Txt (if connected then "connected" else "not connected");
                              Txt " ("; Val (or_else e (JStr env)); Txt ")"] phase);
        let w := appendWsLog line w in
        Normal (setConnDot (if connected then "ok" else "fail") w)
      else if is_str ty "error" then
        err ← getProp msg "error";
        line ← template [Txt "WS error: "; Val (or_else err (JStr "unknown"))];
        let w := appendWsLog line w in
        Normal (setConnDot "fail" w)
      else if is_str ty "binance_event" then
        eventType ← eventType_of msg;
        line ← template [Txt "Event: "; Val eventType];
        let w := appendWsLog line w in
        let w := setConnDot "ok" w in
        if balance_event eventType
        then Normal (snd (setTimeout CbLoadBalances 400%float w))
        else Normal w
      else
        Normal (appendWsLog [Txt "WS message: "; JsonPrefix msg 220] w)
  end.

Definition onclose (env : string) (ev : CloseEvent) (w : World) : World :=
  let w := appendWsLog
             [Txt "WS closed (code="; Code (code ev); Txt ", reason="; Txt dquote;
              Txt (reason ev); Txt dquote; Txt ") -> reconnect in ";
              Rounded (_reconnectDelayMs w / 1000)%float; Txt "s"] w in
  let w := setConnDot "fail" w in
  let '(t, w) := setTimeout (CbReconnect env) (_reconnectDelayMs w) w in
  let w := with_reconnectTimer (Some t) w in
  with_delay (Math_min (_reconnectDelayMs w * 1.6)%float 20000%float) w.

Definition onerror (w : World) : World :=
  let w := appendWsLog [Txt "WS error (socket)"] w in
  setConnDot "fail" w.

(** [startBinanceUserStreamLive env] up to its [await], or to its end when
    the stream was started before. *)
Definition startBinanceUserStreamLive (env : string) (w : World) : World :=
  let w := setConnDot "pending" w in
  if negb (_streamStartedOnce w)
  then ensureBinanceUserStreamStarted_call env w
  else connectUserStreamWS env w.

(** [startBinanceUserStreamLive env] from the [await] on. *)
Definition startBinanceUserStreamLive_resume
    (env : string) (r : FetchOutcome) (w : World) : World :=
  let '(started, w) := ensureBinanceUserStreamStarted_resume env r w in
  if negb started then
    let w := setConnDot "fail" w in
    let w := stopKeepalive w in
    closeUserStreamWS w
  else
    let w := with_started true w in
    let w := startKeepalive env w in
    connectUserStreamWS env w.

Definition stopBinanceUserStream (w : World) : World :=
  let w := stopKeepalive w in
  let w := closeUserStreamWS w in
  let w := with_started false w in
  with_delay 1500%float w.

(** ** The event loop *)

(** The tasks the browser can run: a call of one of the two entry points
    from the page, the settling of an awaited request, an event on a
    socket the script made, and the firing of one of its timers.  Each
    runs to completion before the next. *)
Inductive Event :=
| CallStartLive (env : string)
| CallStop
| FetchDone (f : positive) (r : FetchOutcome)
| WsOpen (s : positive)
| WsMessage (s : positive) (ev : MessageData)
| WsError (s : positive)
| WsClose (s : positive) (ev : CloseEvent)
| TimeoutFire (t : positive)
| IntervalTick (t : positive).

Definition set_readyState (s : positive) (r : ReadyState) (w : World) : World :=
  with_sockets (alter (fun k => mkSocket r (sockEnv k) (sockSecure k)) s (sockets w)) w.

(** A handler that throws leaves the error to the browser console: the
    task ends there.  Every throw of [onmessage] comes before its first
    write, so the world is the one the handler was given. *)
Definition uncaught (c : Completion World) (w : World) : World :=
  match c with
  | Normal w' => w'
  | Throw _ => w
  end.

(** [step e w] is the world after task [e], or [None] when the browser
    cannot run [e] in [w]: an open event needs a connecting socket, a
    message an open one, a close event a socket not yet closed, a timer or
    a request has to be pending. *)
Definition step (e : Event) (w : World) : option World :=
  match e with
  | CallStartLive env => Some (startBinanceUserStreamLive env w)
  | CallStop => Some (stopBinanceUserStream w)
  | FetchDone f r =>
      match fetches w !! f with
      | Some (StartFetch env) =>
          Some (startBinanceUserStreamLive_resume env r
                  (with_fetches (delete f (fetches w)) w))
      | Some (KeepaliveFetch env) =>
          Some (keepalive_resume env r (with_fetches (delete f (fetches w)) w))
      | None => None
      end
  | WsOpen s =>
      match sockets w !! s with
      | Some k =>
          match readyState k with
          | CONNECTING => Some (onopen (set_readyState s OPEN w))
          | _ => None
          end
      | None => None
      end
  | WsMessage s ev =>
      match sockets w !! s with
      | Some k =>
          match readyState k with
          | OPEN => Some (uncaught (onmessage (sockEnv k) ev w) w)
          | _ => None
          end
      | None => None
      end
  | WsError s =>
      match sockets w !! s with
      | Some k => Some (onerror w)
      | None => None
      end
  | WsClose s ev =>
      match sockets w !! s with
      | Some k =>
          match readyState k with
          | CLOSED => None
          | _ => Some (onclose (sockEnv k) ev (set_readyState s CLOSED w))
          end
      | None => None
      end
  | TimeoutFire t =>
      match timers w !! t with
      | Some (Timeout (CbReconnect env) _) =>
          Some (startBinanceUserStreamLive env (clearTimer t w))
      | Some (Timeout CbLoadBalances _) =>
          let w := clearTimer t w in
          Some (with_balanceRefreshes (S (balanceRefreshes w)) w)
      | _ => None
      end
  | IntervalTick t =>
      match timers w !! t with
      | Some (Interval env _) => Some (keepalive_tick env w)
      | _ => None
      end
  end.

Fixpoint run (es : list Event) (w : World) : option World :=
  match es with
  | [] => Some w
  | e :: es' =>
      match step e w with
      | Some w' => run es' w'
      | None => None
      end
  end.

(** Worlds the page can be in: the fresh page, and whatever a task makes
    of such a world. *)
Inductive reachable : World -> Prop :=
| reach_initial sec : reachable (initial sec)
| reach_step e w w' : reachable w -> step e w = Some w' -> reachable w'.

(** ** Observations *)

Definition live (r : ReadyState) : bool :=
  match r with
  | CONNECTING | OPEN => true
  | _ => false
  end.

Definition is_reconnect (t : Timer) : bool :=
  match t with
  | Timeout (CbReconnect _) _ => true
  | _ => false
  end.

Definition is_refresh (t : Timer) : bool :=
  match t with
  | Timeout CbLoadBalances _ => true
  | _ => false
  end.

(** Handles of the pending timers of one kind, in increasing order. *)
Definition pending_timers (p : Timer -> bool) (w : World) : list positive :=
  (map_to_list (filter (fun kv => p (snd kv) = true) (timers w))).*1.

(** ** The backoff ladder *)

Definition floor_ms : float := 1500%float.
Definition ceiling_ms : float := 20000%float.

(** The update of [_reconnectDelayMs] in [onclose]. *)
Definition backoff (d : float) : float := Math_min (d * 1.6)%float 20000%float.

(** The delay after [n] closes in a row, counted from the floor. *)
Fixpoint backoff_n (n : nat) : float :=
  match n with
  | O => floor_ms
  | S n' => backoff (backoff_n n')
  end.

(** ** Invariants *)

(** What holds of every world the page can reach. *)
Record Inv (w : World) : Prop := mkInv {
  (* handles are handed out in increasing order *)
  inv_sockets_fresh : forall k, (nextId w <= k)%positive -> sockets w !! k = None;
  inv_timers_fresh : forall k, (nextId w <= k)%positive -> timers w !! k = None;
  inv_fetches_fresh : forall k, (nextId w <= k)%positive -> fetches w !! k = None;
  (* a socket that is connecting or open is the one [_userStreamWS] names *)
  inv_live : forall s k,
    sockets w !! s = Some k -> live (readyState k) = true -> _userStreamWS w = Some s;
  (* an active interval is the one [_keepaliveTimer] names *)
  inv_interval : forall t env p,
    timers w !! t = Some (Interval env p) -> _keepaliveTimer w = Some t;
  (* the keepalive is armed only in a started session *)
  inv_started : is_Some (_keepaliveTimer w) -> _streamStartedOnce w = true;
  (* the delay sits on the backoff ladder *)
  inv_delay : exists n, _reconnectDelayMs w = backoff_n n
}.

Definition no_live (w : World) : Prop :=
  forall s k, sockets w !! s = Some k -> live (readyState k) = false.

Definition no_interval (w : World) : Prop :=
  forall t env p, timers w !! t <> Some (Interval env p).

(** Every interval of [w'] was already an interval of [w]. *)
Definition intervals_sub (w' w : World) : Prop :=
  forall t env p, timers w' !! t = Some (Interval env p) ->
                  timers w !! t = Some (Interval env p).

(** What a message handler that returns has done: one log line, then at
    most a write of the dot, then at most one refresh timer. *)
Inductive message_effect (w : World) : World -> Prop :=
| effect_log line :
    message_effect w (appendWsLog line w)
| effect_dot line state :
    message_effect w (setConnDot state (appendWsLog line w))
| effect_refresh line :
    message_effect w
      (snd (setTimeout CbLoadBalances 400%float (setConnDot "ok" (appendWsLog line w)))).

(** ** Runs and responses *)

(** Events after which the backoff goes on: all but a transport open and
    a stop. *)
Definition keeps_backoff (e : Event) : bool :=
  match e with
  | WsOpen _ | CallStop => false
  | _ => true
  end.

Definition is_close (e : Event) : bool :=
  match e with
  | WsClose _ _ => true
  | _ => false
  end.

Definition closes (es : list Event) : nat := length (List.filter is_close es).

Definition not_stop (e : Event) : bool :=
  match e with
  | CallStop => false
  | _ => true
  end.

(** The response acknowledges the start: it is an object whose [ok]
    property is truthy. *)
Definition acks (r : FetchOutcome) : bool :=
  match r with
  | Rejected => false
  | Body data => truthy (getPropOpt data "ok")
  end.

Definition start_failed : Line := fetch_failed "User stream start failed: ".

(** ** Messages *)

(** The four recognised tags, and the rest. *)
Inductive Tag := tag_hello | tag_status | tag_error | tag_binance_event | tag_other.

Definition tag_of (ty : JsVal) : Tag :=
  if is_str ty "hello" then tag_hello
  else if is_str ty "status" then tag_status
  else if is_str ty "error" then tag_error
  else if is_str ty "binance_event" then tag_binance_event
  else tag_other.

(** The inner event type of a value that is not [null]. *)
Definition inner_type (msg : JValue) : JValue :=
  let data := or_else (getPropOpt msg "data") (JObj []) in
  or_else (getPropOpt data "e")
    (or_else (getPropOpt data "eventType") (JStr "unknown_event")).

(** The scheduling of the refresh, read off the message: the tag is
    [binance_event] and the inner type is one of the two balance events. *)
Definition qualifies (msg : JValue) : bool :=
  match getProp msg "type" with
  | Normal ty =>
      is_str ty "binance_event"
      && match eventType_of msg with
         | Normal eventType => balance_event eventType
         | Throw _ => false
         end
  | Throw _ => false
  end.

(** The values the handler converts to text on a given message: those of
    the one log line of the branch it takes. *)
Definition interpolated (env : string) (msg : JValue) : list JValue :=
  match tag_of (getPropOpt msg "type") with
  | tag_hello => [or_else (getPropOpt msg "msg") (JStr "ok")]
  | tag_status =>
      app (if truthy (getPropOpt msg "phase")
           then [or_else (getPropOpt msg "phase") JNull]
           else [])
          [or_else (getPropOpt msg "env") (JStr env)]
  | tag_error => [or_else (getPropOpt msg "error") (JStr "unknown")]
  | tag_binance_event => [inner_type msg]
  | tag_other => []
  end.

(** A flag field as the backend writes it: a boolean, or nothing. *)
Definition absent_or_bool (v : JsVal) : bool :=
  match v with
  | None | Some (JBool _) => true
  | _ => false
  end.

(** One message event on a socket made for [env]. *)
Definition deliver (env : string) (w : World) (msg : JValue) : World :=
  uncaught (onmessage env (Json msg) w) w.

(** The messages of [msgs] delivered in order, nothing else in between. *)
Definition deliver_all (env : string) (msgs : list JValue) (w : World) : World :=
  fold_left (deliver env) msgs w.

Definition refresh_timer : Timer := Timeout CbLoadBalances 400%float.

Definition count_timers (p : Timer -> bool) (w : World) : nat :=
  size (filter (fun kv => p (snd kv) = true) (timers w)).

(** ** Sample inputs *)

Definition ev1005 : CloseEvent := mkCloseEvent 1005 EmptyString.

Definition ev1006 : CloseEvent := mkCloseEvent 1006 EmptyString.

Definition ok_body : JValue := JObj [("ok", JBool true)].

Definition unauthorized : JValue :=
  JObj [("ok", JBool false); ("error", JStr "unauthorized")].

Definition balanceUpdate : JValue :=
  JObj [("type", JStr "binance_event");
        ("data", JObj [("e", JStr "balanceUpdate"); ("a", JStr "BTC")])].

Definition executionReport : JValue :=
  JObj [("type", JStr "binance_event"); ("data", JObj [("e", JStr "executionReport")])].

Definition event_without_data : JValue := JObj [("type", JStr "binance_event")].

Definition status_msg (connected : bool) : JValue :=
  JObj [("type", JStr "status"); ("connected", JBool connected);
        ("env", JStr "testnet"); ("phase", JStr "listening")].

Definition status_connected_1 : JValue :=
  JObj [("type", JStr "status"); ("connected", JNum 1%float)].

Definition hello_unprintable : JValue :=
  JObj [("type", JStr "hello"); ("msg", JObj [("toString", JNull)])].

Definition status_connected_text : JValue :=
  JObj [("type", JStr "status"); ("connected", JStr "false")].

Definition error_unprintable : JValue :=
  JObj [("type", JStr "error"); ("error", JObj [("toString", JNull)])].

Definition error_numeric : JValue :=
  JObj [("type", JStr "error"); ("error", JNum 500%float); ("connected", JNum 1%float)].

Definition ok_text_false : JValue := JObj [("ok", JStr "false")].

(** A world whose indicator is at ok. *)
Definition connected_world : World := setConnDot "ok" (initial false).

Definition session_open : list Event :=
  [CallStartLive "testnet"; FetchDone 1 (Body ok_body); WsOpen 3].

(** A start, a connection that fails, the reconnect and a second failure. *)
Definition two_failures : list Event :=
  [CallStartLive "testnet"; FetchDone 1 (Body ok_body);
   WsClose 3 ev1006; TimeoutFire 4; WsClose 5 ev1006].

(** A session on testnet: the start is acknowledged, the socket opens, a
    status message reports the feed connected, and the connection drops
    with code 1006. *)
Definition session_dropped : list Event :=
  [CallStartLive "testnet"; FetchDone 1 (Body ok_body); WsOpen 3;
   WsMessage 3 (Json (status_msg true)); WsClose 3 ev1006].

(** What happens between two starts: the connection fails. *)
Definition failed_connection : list Event :=
  [WsClose 3 ev1006].

(** The page starts the stream, the socket opens, and the page calls the
    entry point a second time: the connect closes socket 3 and makes
    socket 4.  The close event of socket 3 arrives, and then socket 4
    fails. *)
Definition double_start : list Event :=
  [CallStartLive "testnet"; FetchDone 1 (Body ok_body); WsOpen 3;
   CallStartLive "testnet";
   WsClose 3 ev1005; WsClose 4 ev1006].

(** The page starts the stream on one environment, stops it and starts it
    on another; the close event of the first socket arrives after the
    second start, and then the second socket fails. *)
Definition switch_env : list Event :=
  [CallStartLive "testnet"; FetchDone 1 (Body ok_body); WsOpen 3;
   CallStop;
   CallStartLive "production"; FetchDone 4 (Body ok_body);
   WsClose 3 ev1005; WsClose 6 ev1006].

(** ** Further invariants *)

(** What the handles name, where the timers come from and which socket a
    handle points at, in every world the page can reach. *)
Record Named (w : World) : Prop := mkNamed {
  (* handles were handed out before [nextId] *)
  named_reconnect_old : forall t,
    _userStreamReconnectTimer w = Some t -> (t < nextId w)%positive;
  named_keepalive_old : forall t,
    _keepaliveTimer w = Some t -> (t < nextId w)%positive;
  (* a handle names a timer of its own kind, if it names one at all *)
  named_reconnect : forall t x,
    _userStreamReconnectTimer w = Some t -> timers w !! t = Some x ->
    is_reconnect x = true;
  named_keepalive : forall t x,
    _keepaliveTimer w = Some t -> timers w !! t = Some x ->
    is_reconnect x = false /\ is_refresh x = false;
  (* every interval has the keepalive period *)
  named_period : forall t env p,
    timers w !! t = Some (Interval env p) -> p = keepalive_period;
  (* a reconnect timer carries a delay of the ladder and the environment
     of a socket that has closed *)
  named_reconnect_timer : forall t env d,
    timers w !! t = Some (Timeout (CbReconnect env) d) ->
    (exists n, d = backoff_n n)
    /\ exists s k, sockets w !! s = Some k /\ sockEnv k = env /\ readyState k = CLOSED;
  (* a refresh timer waits 400 ms *)
  named_refresh_timer : forall t d,
    timers w !! t = Some (Timeout CbLoadBalances d) -> d = 400%float;
  (* the socket handle names a socket *)
  named_ws : forall s, _userStreamWS w = Some s -> is_Some (sockets w !! s)
}.

(** What a timer has to be for [Named] to admit it. *)
Definition admissible (w : World) (x : Timer) : Prop :=
  match x with
  | Interval _ p => p = keepalive_period
  | Timeout (CbReconnect env) d =>
      (exists n, d = backoff_n n)
      /\ exists s k, sockets w !! s = Some k /\ sockEnv k = env /\ readyState k = CLOSED
  | Timeout CbLoadBalances d => d = 400%float
  end.

(** ** The refresh ledger *)

(** A message event that sets a refresh timer. *)
Definition schedules_refresh (e : Event) : bool :=
  match e with
  | WsMessage _ (Json msg) => qualifies msg
  | _ => false
  end.

(** Refreshes done and refreshes still to come. *)
Definition ledger (w : World) : nat :=
  balanceRefreshes w + count_timers is_refresh w.

(** The refresh timers of [w'] are those of [w], and as many refreshes
    have been done. *)
Definition keeps_refreshes (w' w : World) : Prop :=
  filter (fun kv => is_refresh (snd kv) = true) (timers w')
  = filter (fun kv => is_refresh (snd kv) = true) (timers w)
  /\ balanceRefreshes w' = balanceRefreshes w.

(** ** Numbers and texts on the page *)

(** The two conversions of the runtime that the page scripts lean on and
    that are not code of theirs: the number a text stands for, and the text
    of an array or an object that has one. *)
Record Runtime := mkRuntime {
  StringToNumber : string -> float;
  ToText : JValue -> string
}.

(** [x == null] *)
Definition nullish (v : JsVal) : bool :=
  match v with
  | None | Some JNull => true
  | _ => false
  end.

(** [Number(x)]: an array or an object goes through its text, and has to
    have one. *)
Definition Number (rt : Runtime) (v : JsVal) : Completion float :=
  match v with
  | None => Normal nan
  | Some JNull => Normal 0%float
  | Some (JBool b) => Normal (if b then 1%float else 0%float)
  | Some (JNum x) => Normal x
  | Some (JStr s) => Normal (StringToNumber rt s)
  | Some v' =>
      if printable v' then Normal (StringToNumber rt (ToText rt v')) else Throw TypeError
  end.

(** What an element shows, as the chunks it was put together from. *)
Inductive Shown : Type :=
| STxt (s : string)
| SVal (v : JValue)                       (* [${v}] *)
| SFixed (n : float) (digits : nat)       (* [n.toFixed(digits)] *)
| SLocale (n : float) (maxFraction : nat) (* [n.toLocaleString(undefined, {maximumFractionDigits})] *).

Definition dash : string := "—".

(** ** ui/static/prices_ticker.js *)

Definition fmtPrice (rt : Runtime) (x : JsVal) : Completion (list Shown) :=
  if nullish x then Normal [STxt dash]
  else n ← Number rt x; Normal [SLocale n 2].

Definition fmtPct (rt : Runtime) (x : JsVal) : Completion (list Shown) :=
  if nullish x then Normal [STxt dash]
  else
    n ← Number rt x;
    if negb (is_finite n) then Normal [STxt dash]
    else
      let sign := if (0 <? n)%float then "+" else EmptyString in
      Normal [STxt sign; SFixed n 2; STxt "%"].

(** An element with a text and a list of class tokens, each token once. *)
Record Elem := mkElem {
  textContent : list Shown;
  classList : list string
}.

(** [classList.remove(a, b)] and [classList.add(a)] *)
Definition remove_tokens (a b : string) (l : list string) : list string :=
  List.filter (fun c => negb (String.eqb c a) && negb (String.eqb c b)) l.

Definition add_token (a : string) (l : list string) : list string :=
  if existsb (String.eqb a) l then l else app l [a].

Definition setPct (rt : Runtime) (el : option Elem) (val : JsVal)
  : Completion (option Elem) :=
  match el with
  | None => Normal None
  | Some e =>
      txt ← fmtPct rt val;
      let classes := remove_tokens "up" "down" (classList e) in
      if nullish val then Normal (Some (mkElem txt classes))
      else
        n ← Number rt val;
        if (0 <? n)%float then Normal (Some (mkElem txt (add_token "up" classes)))
        else
          n' ← Number rt val;
          if (n' <? 0)%float then Normal (Some (mkElem txt (add_token "down" classes)))
          else Normal (Some (mkElem txt classes))
  end.

(** ** ui/static/app.js, the rest *)

Definition fmtNum (rt : Runtime) (x : JsVal) : Completion (list Shown) :=
  if nullish x then Normal [STxt "0"]
  else
    n ← Number rt x;
    if negb (is_finite n) then Normal [STxt "0"]
    else Normal [SLocale n 8].

(** An element that [setVisible] shows or hides. *)
Record Banner := mkBanner {
  visible : bool;
  bannerText : string
}.

Definition setVisible (el : option Banner) (v : bool) : option Banner :=
  match el with
  | None => None
  | Some b => Some (mkBanner v (bannerText b))
  end.

(** ** ui/static/dashboard.js: the balance table *)

(** One rendered row: the asset, the free and the locked amount. *)
Record Row := mkRow {
  rowAsset : Shown;
  rowFree : list Shown;
  rowLocked : list Shown
}.

(** What [balBody] holds. *)
Inductive Table :=
| Checking
| NoBalances
| NoData
| Rows (rows : list Row)
| Markup (html : string).       (* what the page came with *)

(** The part of the page [loadBalances] writes: the [balErr] banner and
    the [balBody] table, either of which may be missing, and the
    [exchangeStatus] dot, which is on the page as in the world above. *)
Record Page := mkPage {
  balErr : option Banner;
  balBody : option Table;
  pageDot : Indicator
}.

(** [a ?? ""] *)
Definition or_empty (a : JsVal) : JValue :=
  match a with
  | Some v => if nullish a then JStr EmptyString else v
  | None => JStr EmptyString
  end.

(** One step of [rows.map]: the template of a row. *)
Definition render_row (rt : Runtime) (r : JValue) : Completion Row :=
  a ← getProp r "asset";
  let asset := or_empty a in
  if negb (printable asset) then Throw TypeError
  else
    f ← getProp r "free";
    free ← fmtNum rt f;
    l ← getProp r "locked";
    locked ← fmtNum rt l;
    Normal (mkRow (SVal asset) free locked).

Fixpoint render_rows (rt : Runtime) (rows : list JValue) : Completion (list Row) :=
  match rows with
  | [] => Normal []
  | r :: rest =>
      row ← render_row rt r;
      more ← render_rows rt rest;
      Normal (row :: more)
  end.

(** [rows.length], as far as its truthiness goes *)
Definition has_length (rows : JValue) : bool :=
  match rows with
  | JArr xs => negb (Nat.eqb (List.length xs) 0)
  | JStr s => negb (String.eqb s EmptyString)
  | JObj kvs => truthy (assoc "length" kvs)
  | _ => false
  end.

(** [loadBalances], up to its [await]: the page, and whether the request
    was sent. *)
Definition loadBalances_call (p : Page) : Page * bool :=
  let err := setVisible (balErr p) false in
  match balBody p with
  | None => (mkPage err None (pageDot p), false)
  | Some _ => (mkPage err (Some Checking) pending, true)
  end.

(** The body of the [try] of [loadBalances] once [data] is there. *)
Definition loadBalances_try (rt : Runtime) (data : JValue) (p : Page) : Completion Page :=
  e ← getProp data "error";
  if truthy e then Throw TypeError      (* [throw new Error(data.error)] *)
  else
    b ← getProp data "balances";
    let rows := or_else b (JArr []) in
    if negb (has_length rows)
    then Normal (mkPage (balErr p) (Some NoBalances) green)
    else
      match rows with
      | JArr xs =>
          rendered ← render_rows rt xs;
          Normal (mkPage (balErr p) (Some (Rows rendered)) green)
      | _ => Throw TypeError            (* [rows.map] is not a function *)
      end.

(** The [catch] of [loadBalances]. *)
Definition loadBalances_catch (p : Page) : Page :=
  mkPage (match balErr p with
          | Some b => Some (mkBanner true "Connection failed.")
          | None => None
          end)
         (Some NoData) red.

(** [loadBalances] from the [await] on. *)
Definition loadBalances_resume (rt : Runtime) (r : FetchOutcome) (p : Page) : Page :=
  match r with
  | Rejected => loadBalances_catch p
  | Body data =>
      match loadBalances_try rt data p with
      | Normal p' => p'
      | Throw _ => loadBalances_catch p
      end
  end.

(** One whole call of [loadBalances], the request settling with [r]. *)
Definition loadBalances (rt : Runtime) (r : FetchOutcome) (p : Page) : Page :=
  let '(p1, sent) := loadBalances_call p in
  if sent then loadBalances_resume rt r p1 else p1.

(** ** Which responses the balance table accepts *)

(** [fmtNum] returns on [x]: an array or an object has to have a text. *)
Definition amount_ok (x : JsVal) : bool :=
  match x with
  | Some v => printable v
  | None => true
  end.

Definition row_ok (r : JValue) : bool :=
  match r with
  | JNull => false
  | _ =>
      printable (or_empty (getPropOpt r "asset"))
      && amount_ok (getPropOpt r "free")
      && amount_ok (getPropOpt r "locked")
  end.

(** The response is shown as balances: it is not [null], its [error] is
    falsy, and its [balances] are falsy, or have a falsy [length], or are
    an array of rows that all render. *)
Definition balances_ok (data : JValue) : bool :=
  match data with
  | JNull => false
  | _ =>
      negb (truthy (getPropOpt data "error"))
      && (let rows := or_else (getPropOpt data "balances") (JArr []) in
          negb (has_length rows)
          || match rows with
             | JArr xs => forallb row_ok xs
             | _ => false
             end)
  end.

(** ** What a cell shows *)

(** A chunk that renders a number which is not finite: [NaN] or an
    infinity. *)
Definition nonfinite_chunk (s : Shown) : bool :=
  match s with
  | SFixed n _ | SLocale n _ => negb (is_finite n)
  | _ => false
  end.

Definition shows_nonfinite (out : list Shown) : bool := existsb nonfinite_chunk out.

(** ** Further sample inputs *)

(** The second start of [double_start] has closed socket 3 and made
    socket 4. *)
Definition restarted : list Event := firstn 4 double_start.

(** A session in which two balance events arrive and the page stops the
    stream before either refresh is due. *)
Definition refresh_then_stop : list Event :=
  [CallStartLive "testnet"; FetchDone 1 (Body ok_body); WsOpen 3;
   WsMessage 3 (Json balanceUpdate); WsMessage 3 (Json balanceUpdate);
   CallStop; TimeoutFire 4].

Definition plain_runtime : Runtime := mkRuntime (fun _ => nan) (fun _ => EmptyString).

Definition two_balances : JValue :=
  JObj [("balances",
         JArr [JObj [("asset", JStr "BTC"); ("free", JNum 0.5%float); ("locked", JNum 0%float)];
               JObj [("asset", JStr "USDT"); ("free", JStr "12.5")]])].

Definition empty_page : Page := mkPage (Some (mkBanner true "Connection failed.")) (Some NoData) red.

(** A response whose second row has an amount that is not finite, as
    [JSON.parse] gives for [1e999]. *)
Definition overflowing_balances : JValue :=
  JObj [("balances",
         JArr [JObj [("asset", JStr "BTC"); ("free", JNum 0.5%float); ("locked", JNull)];
               JObj [("asset", JStr "ETH"); ("free", JNum infinity)]])].

(** * Properties *)

(** ** The backoff ladder *)

Lemma backoff_ceiling : backoff ceiling_ms = ceiling_ms.
Proof. reflexivity. Qed.

Lemma backoff_n_saturates (n : nat) : backoff_n (6 + n) = ceiling_ms.
Proof.
  induction n as [|n IH].
  - reflexivity.
  - replace (6 + S n) with (S (6 + n)) by lia.
    change (backoff (backoff_n (6 + n)) = ceiling_ms).
    rewrite IH. exact backoff_ceiling.
Qed.

(** Every rung is one of seven doubles. *)
Lemma backoff_n_cases (n : nat) :
  backoff_n n = backoff_n (Nat.min n 6).
Proof.
  destruct (Nat.le_gt_cases n 6) as [H|H].
  - rewrite Nat.min_l by exact H. reflexivity.
  - rewrite Nat.min_r by lia.
    replace n with (6 + (n - 6)) by lia.
    rewrite backoff_n_saturates. reflexivity.
Qed.

Lemma small_cases (P : nat -> Prop) :
  P 0 -> P 1 -> P 2 -> P 3 -> P 4 -> P 5 -> P 6 -> forall n, n <= 6 -> P n.
Proof.
  intros H0 H1 H2 H3 H4 H5 H6 n Hn.
  do 7 (destruct n as [|n]; [assumption|]). lia.
Qed.

Lemma backoff_n_bounds (n : nat) :
  (floor_ms <=? backoff_n n)%float = true /\ (backoff_n n <=? ceiling_ms)%float = true.
Proof.
  rewrite backoff_n_cases.
  apply (small_cases (fun k => (floor_ms <=? backoff_n k)%float = true
                               /\ (backoff_n k <=? ceiling_ms)%float = true));
    try (split; reflexivity).
  apply Nat.le_min_r.
Qed.

Lemma backoff_n_mono (n : nat) :
  (backoff_n n <=? backoff_n (S n))%float = true.
Proof.
  destruct (Nat.le_gt_cases n 6) as [H|H].
  - revert n H.
    apply (small_cases (fun k => (backoff_n k <=? backoff_n (S k))%float = true));
      reflexivity.
  - replace n with (6 + (n - 6)) by lia.
    replace (S (6 + (n - 6))) with (6 + S (n - 6)) by lia.
    rewrite !backoff_n_saturates. reflexivity.
Qed.

(** The rungs, as decimal numbers: five of the seven are exact, the two
    others are the doubles just above 9830.4 and 15728.64. *)
Lemma backoff_n_values :
  map backoff_n [0; 1; 2; 3; 4; 5; 6]
  = [1500; 2400; 3840; 6144; 9830.4000000000015; 15728.640000000003; 20000]%float.
Proof. reflexivity. Qed.

(** ** What a message handler can do *)

Lemma bind_Normal {A B} (c : Completion A) (k : A -> Completion B) (b : B) :
  c ≫= k = Normal b -> exists a, c = Normal a /\ k a = Normal b.
Proof. destruct c as [a|e]; [eauto | discriminate]. Qed.

Ltac inv_bind H :=
  let a := fresh "a" in
  let Ha := fresh "Ha" in
  apply bind_Normal in H; destruct H as (a & Ha & H).

Lemma onmessage_effect env ev w w' :
  onmessage env ev w = Normal w' -> message_effect w w'.
Proof.
  unfold onmessage. intros H.
  destruct ev as [raw|msg]; [simplify_eq; constructor|].
  inv_bind H.
  repeat (case_match; [repeat inv_bind H; repeat case_match; simplify_eq; constructor|]).
  simplify_eq; constructor.
Qed.

(** ** Invariants of reachable worlds *)

Lemma Inv_initial sec : Inv (initial sec).
Proof.
  constructor; simpl; try done.
  exists 0. reflexivity.
Qed.

Lemma Inv_setConnDot state w : Inv w -> Inv (setConnDot state w).
Proof. intros []. constructor; simpl; auto. Qed.

Lemma Inv_appendWsLog line w : Inv w -> Inv (appendWsLog line w).
Proof. intros []. constructor; simpl; auto. Qed.

Lemma Inv_clearTimer t w : Inv w -> Inv (clearTimer t w).
Proof.
  intros []. constructor; simpl; auto.
  - intros k Hk. apply lookup_delete_None. auto.
  - intros t' env p Ht. apply lookup_delete_Some in Ht as [_ Ht]. eauto.
Qed.

Lemma Inv_stopKeepalive w :
  Inv w -> Inv (stopKeepalive w) /\ no_interval (stopKeepalive w)
           /\ _keepaliveTimer (stopKeepalive w) = None.
Proof.
  intros HI. unfold stopKeepalive, no_interval.
  destruct (_keepaliveTimer w) as [t|] eqn:Hk.
  - split; [|split; [|reflexivity]].
    + destruct (Inv_clearTimer t w HI).
      constructor; simpl in *; auto; try (intros [? ?]; discriminate).
      intros t' env p Ht. exfalso.
      apply lookup_delete_Some in Ht as [Hne Ht].
      apply (inv_interval w HI) in Ht. congruence.
    + simpl. intros t' env p Ht.
      apply lookup_delete_Some in Ht as [Hne Ht].
      apply (inv_interval w HI) in Ht. congruence.
  - split; [exact HI|split; [|exact Hk]].
    intros t env p Ht. apply (inv_interval w HI) in Ht. congruence.
Qed.

Lemma Pos_succ_le (a k : positive) : (Pos.succ a <= k)%positive -> (a <= k)%positive /\ a <> k.
Proof. lia. Qed.

Lemma Inv_setTimeout cb d w : Inv w -> Inv (snd (setTimeout cb d w)).
Proof.
  intros []. constructor; simpl; auto.
  - intros k Hk. apply Pos_succ_le in Hk as [Hk _]. auto.
  - intros k Hk. apply Pos_succ_le in Hk as [Hk Hne].
    rewrite lookup_insert_ne by done. auto.
  - intros k Hk. apply Pos_succ_le in Hk as [Hk _]. auto.
  - intros t env p Ht. apply lookup_insert_Some in Ht as [[_ ?]|[_ Ht]]; [discriminate|eauto].
Qed.

Lemma Inv_fetch f w : Inv w -> Inv (fetch f w).
Proof.
  intros []. constructor; simpl; auto.
  - intros k Hk. apply Pos_succ_le in Hk as [Hk _]. auto.
  - intros k Hk. apply Pos_succ_le in Hk as [Hk _]. auto.
  - intros k Hk. apply Pos_succ_le in Hk as [Hk Hne].
    rewrite lookup_insert_ne by done. auto.
Qed.

Lemma Inv_startKeepalive env w :
  Inv w -> _streamStartedOnce w = true -> Inv (startKeepalive env w).
Proof.
  intros HI Hs. unfold startKeepalive.
  destruct (Inv_stopKeepalive w HI) as (HI' & Hno & Hk).
  assert (Hs' : _streamStartedOnce (stopKeepalive w) = true).
  { unfold stopKeepalive. destruct (_keepaliveTimer w); exact Hs. }
  destruct HI'. simpl. constructor; simpl; auto.
  - intros k Hk'. apply Pos_succ_le in Hk' as [Hk' _]. auto.
  - intros k Hk'. apply Pos_succ_le in Hk' as [Hk' Hne].
    rewrite lookup_insert_ne by done. auto.
  - intros k Hk'. apply Pos_succ_le in Hk' as [Hk' _]. auto.
  - intros t e p Ht. apply lookup_insert_Some in Ht as [[-> _]|[_ Ht]]; [reflexivity|].
    exfalso. exact (Hno _ _ _ Ht).
Qed.

Lemma live_close_state r : live (close_state r) = false.
Proof. by destruct r. Qed.

Lemma Inv_ws_close s w : Inv w -> Inv (ws_close s w).
Proof.
  intros []. constructor; simpl; auto.
  - intros k Hk. apply lookup_alter_None. auto.
  - intros s' k Hs Hl. apply lookup_alter_Some in Hs as [(-> & k0 & Hk0 & ->)|[_ Hs]].
    + simpl in Hl. rewrite live_close_state in Hl. discriminate.
    + eauto.
Qed.

Lemma Inv_with_reconnectTimer x w : Inv w -> Inv (with_reconnectTimer x w).
Proof. intros []. constructor; simpl; auto. Qed.

Lemma Inv_closeUserStreamWS w :
  Inv w -> Inv (closeUserStreamWS w) /\ no_live (closeUserStreamWS w)
           /\ _userStreamWS (closeUserStreamWS w) = None
           /\ _userStreamReconnectTimer (closeUserStreamWS w) = None.
Proof.
  intros HI. unfold closeUserStreamWS.
  set (w1 := match _userStreamReconnectTimer w with
             | Some t => with_reconnectTimer None (clearTimer t w)
             | None => w
             end).
  assert (H1 : Inv w1).
  { subst w1. destruct (_userStreamReconnectTimer w);
      [apply Inv_with_reconnectTimer, Inv_clearTimer|]; exact HI. }
  assert (Ht : _userStreamReconnectTimer w1 = None).
  { subst w1. destruct (_userStreamReconnectTimer w) eqn:E; [reflexivity|exact E]. }
  clearbody w1. clear HI.
  destruct (_userStreamWS w1) as [s|] eqn:Hs.
  - split; [|split; [|split]]; simpl; auto.
    + destruct (Inv_ws_close s w1 H1). constructor; simpl in *; auto.
      intros s' k Hk Hl. exfalso.
      apply lookup_alter_Some in Hk as [(-> & k0 & Hk0 & ->)|[Hne Hk]].
      * simpl in Hl. rewrite live_close_state in Hl. discriminate.
      * apply (inv_live w1 H1) in Hk; [congruence|exact Hl].
    + intros s' k Hk. simpl in Hk.
      apply lookup_alter_Some in Hk as [(-> & k0 & Hk0 & ->)|[Hne Hk]].
      * apply live_close_state.
      * destruct (live (readyState k)) eqn:Hl; [|reflexivity].
        apply (inv_live w1 H1) in Hk; [congruence|exact Hl].
  - split; [exact H1|split; [|split; assumption]].
    intros s k Hk. destruct (live (readyState k)) eqn:Hl; [|reflexivity].
    apply (inv_live w1 H1) in Hk; [congruence|exact Hl].
Qed.

Lemma Inv_connectUserStreamWS env w : Inv w -> Inv (connectUserStreamWS env w).
Proof.
  intros HI. unfold connectUserStreamWS.
  destruct (Inv_closeUserStreamWS w HI) as (HI' & Hno & _ & _).
  set (w1 := closeUserStreamWS w) in *. clearbody w1.
  destruct HI'. simpl. constructor; simpl; auto.
  - intros k Hk. apply Pos_succ_le in Hk as [Hk Hne].
    rewrite lookup_insert_ne by done. auto.
  - intros k Hk. apply Pos_succ_le in Hk as [Hk _]. auto.
  - intros k Hk. apply Pos_succ_le in Hk as [Hk _]. auto.
  - intros s k Hs Hl. apply lookup_insert_Some in Hs as [[-> _]|[_ Hs]]; [reflexivity|].
    apply Hno in Hs. congruence.
Qed.

Lemma Inv_onopen s k w :
  Inv w -> sockets w !! s = Some k -> readyState k = CONNECTING ->
  Inv (onopen (set_readyState s OPEN w)).
Proof.
  intros HI Hs Hr. destruct HI. constructor; simpl; auto.
  - intros k' Hk. apply lookup_alter_None. auto.
  - intros s' k' Hs' Hl.
    apply lookup_alter_Some in Hs' as [(-> & k0 & Hk0 & ->)|[_ Hs']].
    + apply (inv_live0 _ k); [exact Hs|]. rewrite Hr. reflexivity.
    + eauto.
  - exists 0. reflexivity.
Qed.

Lemma Inv_onclose env ev s w :
  Inv w -> Inv (onclose env ev (set_readyState s CLOSED w)).
Proof.
  intros []. constructor; simpl; auto.
  - intros k Hk. apply Pos_succ_le in Hk as [Hk Hne].
    apply lookup_alter_None. auto.
  - intros k Hk. apply Pos_succ_le in Hk as [Hk Hne].
    rewrite lookup_insert_ne by done. auto.
  - intros k Hk. apply Pos_succ_le in Hk as [Hk _]. auto.
  - intros s' k Hs Hl.
    apply lookup_alter_Some in Hs as [(-> & k0 & Hk0 & ->)|[_ Hs]];
      [discriminate|eauto].
  - intros t e p Ht. apply lookup_insert_Some in Ht as [[_ ?]|[_ Ht]]; [discriminate|eauto].
  - destruct inv_delay0 as [n Hn]. exists (S n). simpl. rewrite Hn. reflexivity.
Qed.

Lemma Inv_onerror w : Inv w -> Inv (onerror w).
Proof. intros HI. apply Inv_setConnDot, Inv_appendWsLog, HI. Qed.

Lemma Inv_message_effect w w' : message_effect w w' -> Inv w -> Inv w'.
Proof.
  intros [line|line state|line] HI.
  - by apply Inv_appendWsLog.
  - by apply Inv_setConnDot, Inv_appendWsLog.
  - by apply Inv_setTimeout, Inv_setConnDot, Inv_appendWsLog.
Qed.

Lemma Inv_keepalive_resume env r w : Inv w -> Inv (keepalive_resume env r w).
Proof.
  intros HI. unfold keepalive_resume.
  repeat case_match; by apply Inv_appendWsLog.
Qed.

(** The starter only writes the log. *)
Lemma ensure_resume_log env r w :
  exists line, snd (ensureBinanceUserStreamStarted_resume env r w) = appendWsLog line w.
Proof.
  unfold ensureBinanceUserStreamStarted_resume.
  destruct r as [|data]; [eauto|].
  destruct (ensureBinanceUserStreamStarted_try env data w) as [[b w']|e] eqn:H; [|eauto].
  unfold ensureBinanceUserStreamStarted_try in H.
  inv_bind H. case_match; [simplify_eq; eauto|].
  do 2 inv_bind H. simplify_eq. eauto.
Qed.

Lemma Inv_with_fetches_delete f w : Inv w -> Inv (with_fetches (delete f (fetches w)) w).
Proof.
  intros []. constructor; simpl; auto.
  intros k Hk. apply lookup_delete_None. auto.
Qed.

Lemma Inv_with_started_true w : Inv w -> Inv (with_started true w).
Proof. intros []. constructor; simpl; auto. Qed.

Lemma Inv_with_starterCalls n w : Inv w -> Inv (with_starterCalls n w).
Proof. intros []. constructor; simpl; auto. Qed.

Lemma Inv_startBinanceUserStreamLive env w :
  Inv w -> Inv (startBinanceUserStreamLive env w).
Proof.
  intros HI. unfold startBinanceUserStreamLive, ensureBinanceUserStreamStarted_call.
  case_match.
  - by apply Inv_fetch, Inv_with_starterCalls, Inv_setConnDot.
  - by apply Inv_connectUserStreamWS, Inv_setConnDot.
Qed.

Lemma Inv_startBinanceUserStreamLive_resume env r w :
  Inv w -> Inv (startBinanceUserStreamLive_resume env r w).
Proof.
  intros HI. unfold startBinanceUserStreamLive_resume.
  destruct (ensure_resume_log env r w) as [line Hl].
  destruct (ensureBinanceUserStreamStarted_resume env r w) as [b w1].
  simpl in Hl. subst w1.
  destruct b; simpl.
  - apply Inv_connectUserStreamWS, Inv_startKeepalive; [|reflexivity].
    by apply Inv_with_started_true, Inv_appendWsLog.
  - apply Inv_closeUserStreamWS, Inv_stopKeepalive.
    by apply Inv_setConnDot, Inv_appendWsLog.
Qed.

Lemma Inv_stopBinanceUserStream w : Inv w -> Inv (stopBinanceUserStream w).
Proof.
  intros HI. unfold stopBinanceUserStream.
  destruct (Inv_stopKeepalive w HI) as (H1 & _ & Hk).
  destruct (Inv_closeUserStreamWS _ H1) as (H2 & _ & _ & _).
  assert (Hk' : _keepaliveTimer (closeUserStreamWS (stopKeepalive w)) = None).
  { revert Hk. generalize (stopKeepalive w). intros w1 Hk.
    unfold closeUserStreamWS. repeat case_match; exact Hk. }
  destruct H2. constructor; simpl; auto.
  - rewrite Hk'. intros [? ?]. discriminate.
  - exists 0. reflexivity.
Qed.

Lemma Inv_step e w w' : Inv w -> step e w = Some w' -> Inv w'.
Proof.
  intros HI H. destruct e; simpl in H.
  - simplify_eq. by apply Inv_startBinanceUserStreamLive.
  - simplify_eq. by apply Inv_stopBinanceUserStream.
  - repeat case_match; simplify_eq.
    + by apply Inv_startBinanceUserStreamLive_resume, Inv_with_fetches_delete.
    + by apply Inv_keepalive_resume, Inv_with_fetches_delete.
  - repeat case_match; simplify_eq. by eapply Inv_onopen.
  - repeat case_match; simplify_eq.
    destruct (onmessage _ ev w) as [w1|err] eqn:Hm; simpl; [|exact HI].
    eapply Inv_message_effect; [eapply onmessage_effect; exact Hm|exact HI].
  - repeat case_match; simplify_eq. by apply Inv_onerror.
  - repeat case_match; simplify_eq; by apply Inv_onclose.
  - repeat case_match; simplify_eq.
    + by apply Inv_startBinanceUserStreamLive, Inv_clearTimer.
    + apply Inv_clearTimer with (t := t) in HI. destruct HI. constructor; simpl; auto.
  - repeat case_match; simplify_eq. by apply Inv_fetch.
Qed.

Theorem reachable_Inv w : reachable w -> Inv w.
Proof.
  induction 1 as [sec|e w w' _ IH Hs].
  - apply Inv_initial.
  - exact (Inv_step e w w' IH Hs).
Qed.

Lemma run_reachable es : forall w w', reachable w -> run es w = Some w' -> reachable w'.
Proof.
  induction es as [|e es IH]; simpl; intros w w' Hr H.
  - by simplify_eq.
  - destruct (step e w) as [w1|] eqn:Hs; [|discriminate].
    eapply IH; [|exact H]. eapply reach_step; eauto.
Qed.

(** ** The reconnect delay along a run *)

(** Projections of a world through the script, on the goal alone. *)
Ltac frame :=
  unfold stopBinanceUserStream, startBinanceUserStreamLive,
    ensureBinanceUserStreamStarted_call, onerror, onclose, onopen,
    connectUserStreamWS, closeUserStreamWS, keepalive_resume, keepalive_tick,
    startKeepalive, stopKeepalive, appendWsLog, setConnDot, fetch, ws_close,
    newWebSocket, clearTimer, setInterval, setTimeout, set_readyState;
  simpl;
  repeat (match goal with
          | |- context [match ?x with _ => _ end] => destruct x eqn:?
          end; simpl);
  try done.

Lemma resume_cases env r w :
  exists line,
    (fst (ensureBinanceUserStreamStarted_resume env r w) = true
     /\ startBinanceUserStreamLive_resume env r w
        = connectUserStreamWS env
            (startKeepalive env (with_started true (appendWsLog line w))))
    \/ (fst (ensureBinanceUserStreamStarted_resume env r w) = false
        /\ startBinanceUserStreamLive_resume env r w
           = closeUserStreamWS (stopKeepalive (setConnDot "fail" (appendWsLog line w)))).
Proof.
  destruct (ensure_resume_log env r w) as [line Hl]. exists line.
  unfold startBinanceUserStreamLive_resume.
  destruct (ensureBinanceUserStreamStarted_resume env r w) as [b w1].
  simpl in *. subst w1. destruct b; simpl; auto.
Qed.

Lemma step_delay e w w' :
  step e w = Some w' ->
  _reconnectDelayMs w' =
    match e with
    | WsOpen _ | CallStop => floor_ms
    | WsClose _ _ => backoff (_reconnectDelayMs w)
    | _ => _reconnectDelayMs w
    end.
Proof.
  intros H. destruct e; simpl in H.
  - simplify_eq. frame.
  - simplify_eq. frame.
  - repeat case_match; simplify_eq.
    + destruct (resume_cases env r (with_fetches (delete f (fetches w)) w))
        as [line [[_ ->]|[_ ->]]]; frame.
    + frame.
  - repeat case_match; simplify_eq. reflexivity.
  - repeat case_match; simplify_eq.
    destruct (onmessage _ ev w) as [w1|err] eqn:Hm; simpl; [|reflexivity].
    apply onmessage_effect in Hm. destruct Hm; reflexivity.
  - repeat case_match; simplify_eq. reflexivity.
  - repeat case_match; simplify_eq; reflexivity.
  - repeat case_match; simplify_eq; frame.
  - repeat case_match; simplify_eq. reflexivity.
Qed.

Lemma backoff_n_le (n m : nat) :
  n <= m -> (backoff_n n <=? backoff_n m)%float = true.
Proof.
  intros H. rewrite (backoff_n_cases n), (backoff_n_cases m).
  assert (Hle : Nat.min n 6 <= Nat.min m 6) by lia.
  assert (Hn : Nat.min n 6 <= 6) by lia.
  assert (Hm : Nat.min m 6 <= 6) by lia.
  revert Hle. generalize dependent (Nat.min m 6). generalize dependent (Nat.min n 6).
  clear. intros a Ha.
  revert a Ha.
  refine (small_cases _ _ _ _ _ _ _ _); intros b Hb; revert b Hb;
    refine (small_cases _ _ _ _ _ _ _ _); intros Hle; solve [reflexivity | lia].
Qed.

Lemma backoff_n_add (k n : nat) : Nat.iter k backoff (backoff_n n) = backoff_n (k + n).
Proof. induction k as [|k IH]; simpl; [reflexivity|]. by rewrite IH. Qed.

Lemma iter_backoff_shift (k : nat) (d : float) :
  backoff (Nat.iter k backoff d) = Nat.iter k backoff (backoff d).
Proof. induction k as [|k IH]; simpl; [reflexivity|]. by rewrite IH. Qed.

Lemma run_delay es : forall w w',
  run es w = Some w' -> forallb keeps_backoff es = true ->
  _reconnectDelayMs w' = Nat.iter (closes es) backoff (_reconnectDelayMs w).
Proof.
  induction es as [|e es IH]; simpl; intros w w' H Hk.
  - by simplify_eq.
  - destruct (step e w) as [w1|] eqn:Hs; [|discriminate].
    apply andb_prop in Hk as [Hk1 Hk2].
    rewrite (IH _ _ H Hk2). apply step_delay in Hs.
    unfold closes. simpl.
    destruct e; simpl in *; try discriminate; rewrite Hs; try reflexivity.
    symmetry. apply iter_backoff_shift.
Qed.

(** C1: the reconnect delay starts at the floor of 1500 ms; along every
    run of the page that has no transport open (and no stop) in it, the
    delay is the start delay taken through [min(d * 1.6, 20000)] once per
    close event, it never decreases, and it stays between the floor and
    the ceiling of 20000 ms; a transport open puts it back to the floor. *)
Theorem reconnect_delay_backoff
    (w w' : World) (es : list Event)
    (Hreach : reachable w)
    (Hrun : run es w = Some w')
    (Hkeep : forallb keeps_backoff es = true) :
  _reconnectDelayMs w' = Nat.iter (closes es) backoff (_reconnectDelayMs w)
  /\ (_reconnectDelayMs w <=? _reconnectDelayMs w')%float = true
  /\ (floor_ms <=? _reconnectDelayMs w')%float = true
  /\ (_reconnectDelayMs w' <=? ceiling_ms)%float = true
  /\ (forall sec, _reconnectDelayMs (initial sec) = floor_ms)
  /\ (forall s w'', step (WsOpen s) w' = Some w'' -> _reconnectDelayMs w'' = floor_ms).
Proof.
  pose proof (run_delay es w w' Hrun Hkeep) as Hd.
  destruct (inv_delay w (reachable_Inv w Hreach)) as [n Hn].
  rewrite Hn, backoff_n_add in Hd.
  split; [|split; [|split; [|split; [|split]]]].
  - rewrite Hd, Hn, backoff_n_add. reflexivity.
  - rewrite Hd, Hn. apply backoff_n_le. lia.
  - rewrite Hd. apply backoff_n_bounds.
  - rewrite Hd. apply backoff_n_bounds.
  - reflexivity.
  - intros s w'' Hs. apply step_delay in Hs. exact Hs.
Qed.

Lemma reconnect_delay_backoff_witness :
  exists w',
    run two_failures (initial false) = Some w'
    /\ _reconnectDelayMs w' = 3840%float
    /\ (_reconnectDelayMs (initial false) <=? _reconnectDelayMs w')%float = true.
Proof.
  destruct (run two_failures (initial false)) as [w'|] eqn:Hrun;
    [|vm_compute in Hrun; discriminate].
  exists w'.
  destruct (reconnect_delay_backoff (initial false) w' two_failures
              (reach_initial false) Hrun eq_refl) as (Hd & Hle & _).
  split; [reflexivity|]. split; [|exact Hle].
  rewrite Hd. reflexivity.
Defined.

(** ** What stop and connect release *)

(** [stopBinanceUserStream] on any world: the three handles are null, the
    session is not started, the delay is at the floor, and the timer, the
    interval and the socket the handles named are released. *)
Lemma stopBinanceUserStream_handles (w : World) :
  let w' := stopBinanceUserStream w in
  _userStreamWS w' = None
  /\ _userStreamReconnectTimer w' = None
  /\ _keepaliveTimer w' = None
  /\ _streamStartedOnce w' = false
  /\ _reconnectDelayMs w' = floor_ms
  /\ (forall t, _userStreamReconnectTimer w = Some t -> timers w' !! t = None)
  /\ (forall t, _keepaliveTimer w = Some t -> timers w' !! t = None)
  /\ (forall s k, _userStreamWS w = Some s -> sockets w' !! s = Some k ->
        live (readyState k) = false).
Proof.
  simpl. repeat apply conj.
  - frame.
  - frame.
  - frame.
  - reflexivity.
  - reflexivity.
  - intros t Ht. unfold stopBinanceUserStream, closeUserStreamWS, stopKeepalive.
    destruct (_keepaliveTimer w) as [i|]; simpl; rewrite Ht; simpl;
      destruct (_userStreamWS w); simpl; apply lookup_delete_eq.
  - intros t Ht. unfold stopBinanceUserStream, closeUserStreamWS, stopKeepalive.
    rewrite Ht. simpl.
    destruct (_userStreamReconnectTimer w) as [r|]; simpl;
      destruct (_userStreamWS w); simpl;
      try apply lookup_delete_eq; apply lookup_delete_None; right; apply lookup_delete_eq.
  - intros s k Hs. unfold stopBinanceUserStream, closeUserStreamWS, stopKeepalive.
    destruct (_keepaliveTimer w) as [i|]; simpl;
      destruct (_userStreamReconnectTimer w) as [r|]; simpl; rewrite Hs; simpl;
      intros Hk; apply lookup_alter_Some in Hk as [(_ & k0 & _ & ->)|[? _]];
      try done; apply live_close_state.
Qed.

(** On a reachable world no socket is left connecting or open and no
    interval is left active. *)
Lemma stopBinanceUserStream_quiet (w : World) :
  reachable w ->
  no_live (stopBinanceUserStream w) /\ no_interval (stopBinanceUserStream w).
Proof.
  intros Hr. apply reachable_Inv in Hr.
  destruct (Inv_stopKeepalive w Hr) as (H1 & Hni & _).
  destruct (Inv_closeUserStreamWS _ H1) as (_ & Hnl & _ & _).
  split.
  - exact Hnl.
  - intros t env p Ht. apply (Hni t env p).
    revert Ht. unfold stopBinanceUserStream, closeUserStreamWS. simpl.
    repeat (case_match; simpl); try done.
    all: intros Ht; apply lookup_delete_Some in Ht as [_ Ht]; exact Ht.
Qed.

(** In a reachable world at most one socket is connecting or open. *)
Lemma at_most_one_live_socket (w : World) (s1 s2 : positive) (k1 k2 : Socket) :
  reachable w ->
  sockets w !! s1 = Some k1 -> live (readyState k1) = true ->
  sockets w !! s2 = Some k2 -> live (readyState k2) = true ->
  s1 = s2.
Proof.
  intros Hr H1 L1 H2 L2. apply reachable_Inv in Hr.
  pose proof (inv_live w Hr _ _ H1 L1). pose proof (inv_live w Hr _ _ H2 L2).
  congruence.
Qed.

(** [connectUserStreamWS] clears the timer its handle names and leaves,
    on a reachable world, the socket it has just made as the only one
    that is connecting or open. *)
Lemma connectUserStreamWS_releases (env : string) (w : World) :
  reachable w ->
  let w' := connectUserStreamWS env w in
  _userStreamWS w' = Some (nextId w)
  /\ sockets w' !! nextId w = Some (mkSocket CONNECTING env (secure w))
  /\ _userStreamReconnectTimer w' = None
  /\ (forall t, _userStreamReconnectTimer w = Some t -> timers w' !! t = None)
  /\ (forall s k, sockets w' !! s = Some k -> live (readyState k) = true -> s = nextId w).
Proof.
  intros Hr. apply reachable_Inv in Hr. simpl.
  assert (Hid : _userStreamWS (connectUserStreamWS env w) = Some (nextId w)) by frame.
  repeat apply conj.
  - exact Hid.
  - unfold connectUserStreamWS, closeUserStreamWS.
    repeat (case_match; simpl); apply lookup_insert_eq.
  - frame.
  - intros t Ht. unfold connectUserStreamWS, closeUserStreamWS. rewrite Ht. simpl.
    destruct (_userStreamWS w); simpl; apply lookup_delete_eq.
  - intros s k Hs Hl.
    pose proof (inv_live _ (Inv_connectUserStreamWS env w Hr) s k Hs Hl) as H.
    congruence.
Qed.

(** ** Two traces of the page *)

(** The session of [session_dropped], step by step: the keepalive is
    armed and the dot is pending once the socket is made, ok after the
    status message, fail after the close; the reconnect is set for 1500 ms
    and the next delay is 2400 ms. *)
Example session_dropped_trace :
  (fun w => (connDot w, _keepaliveTimer w, timers w !! 2%positive))
    <$> run (firstn 3 session_dropped) (initial false)
  = Some (pending, Some 2%positive, Some (Interval "testnet" 1500000%float))
  /\ connDot <$> run (firstn 4 session_dropped) (initial false) = Some green
  /\ (fun w => (connDot w, _userStreamReconnectTimer w, timers w !! 4%positive,
                _reconnectDelayMs w))
       <$> run session_dropped (initial false)
     = Some (red, Some 4%positive,
             Some (Timeout (CbReconnect "testnet") 1500%float), 2400%float).
Proof. repeat split; vm_compute; reflexivity. Qed.

(** A start that the backend refuses: no socket, no timer, the dot at
    fail. *)
Example refused_start_trace :
  (fun w => (connDot w, sockets w, timers w, _streamStartedOnce w))
    <$> run [CallStartLive "testnet"; FetchDone 1 (Body unauthorized)] (initial false)
  = Some (red, ∅, ∅, false).
Proof. vm_compute. reflexivity. Qed.

(** C3, on the trace [double_start]: both close handlers have set a timer
    and the second has overwritten the handle of the first, so two
    reconnect timers are pending at once; the next connect clears the one
    its handle names and leaves the other pending. *)
Theorem two_reconnect_timers_pending :
  (fun w => (pending_timers is_reconnect w,
             _userStreamReconnectTimer w,
             pending_timers is_reconnect (connectUserStreamWS "testnet" w)))
    <$> run double_start (initial false)
  = Some ([5; 6]%positive, Some 6%positive, [5]%positive).
Proof. vm_compute. reflexivity. Qed.

(** C2, on the trace [switch_env] followed by a stop: the stop clears the
    timer its handle names, and the timer set by the close handler of the
    first socket stays pending; when it fires, the stopped manager calls
    the starter again. *)
Theorem stop_leaves_reconnect_timer_pending :
  (fun w => let w' := stopBinanceUserStream w in
            (_userStreamReconnectTimer w',
             pending_timers is_reconnect w',
             timers w' !! 7%positive,
             starterCalls w',
             starterCalls <$> step (TimeoutFire 7) w'))
    <$> run switch_env (initial false)
  = Some (None, [7]%positive,
          Some (Timeout (CbReconnect "testnet") 1500%float), 2, Some 3).
Proof. vm_compute. reflexivity. Qed.

(** ** The starter *)

Lemma ensure_resume_fst env r w :
  fst (ensureBinanceUserStreamStarted_resume env r w) = acks r.
Proof.
  unfold ensureBinanceUserStreamStarted_resume, ensureBinanceUserStreamStarted_try.
  destruct r as [|data]; [reflexivity|].
  destruct data; simpl; try reflexivity.
  destruct (truthy (assoc "ok" kvs)); simpl; [reflexivity|].
  destruct (template _); reflexivity.
Qed.

Lemma step_started e w w' :
  step e w = Some w' -> not_stop e = true ->
  _streamStartedOnce w = true ->
  _streamStartedOnce w' = true /\ starterCalls w' = starterCalls w.
Proof.
  intros H Hns Hst. destruct e; simpl in H; try discriminate.
  - simplify_eq. unfold startBinanceUserStreamLive. simpl. rewrite Hst. simpl.
    split; frame.
  - repeat case_match; simplify_eq.
    + destruct (resume_cases env r (with_fetches (delete f (fetches w)) w))
        as [line [[_ ->]|[_ ->]]]; split; frame.
    + split; frame.
  - repeat case_match; simplify_eq. auto.
  - repeat case_match; simplify_eq.
    destruct (onmessage _ ev w) as [w1|err] eqn:Hm; simpl; [|auto].
    apply onmessage_effect in Hm. destruct Hm; auto.
  - repeat case_match; simplify_eq. auto.
  - repeat case_match; simplify_eq; auto.
  - repeat case_match; simplify_eq.
    + unfold startBinanceUserStreamLive. simpl. rewrite Hst. simpl.
      split; frame.
    + auto.
  - repeat case_match; simplify_eq. auto.
Qed.

Lemma run_started es : forall w w',
  run es w = Some w' -> forallb not_stop es = true ->
  _streamStartedOnce w = true ->
  _streamStartedOnce w' = true /\ starterCalls w' = starterCalls w.
Proof.
  induction es as [|e es IH]; simpl; intros w w' H Hns Hst.
  - by simplify_eq.
  - destruct (step e w) as [w1|] eqn:Hs; [|discriminate].
    apply andb_prop in Hns as [Hn1 Hn2].
    destruct (step_started e w w1 Hs Hn1 Hst) as [Hst1 Hc1].
    destruct (IH w1 w' H Hn2 Hst1) as [Hst' Hc']. split; congruence.
Qed.

(** C4: in a session that is not started, a first [startLive] sends one
    request to the starter; once the starter has acknowledged, whatever
    the page does next short of a stop, the session stays started and no
    further request is sent, and a second [startLive] goes straight to the
    socket connect. *)
Theorem starter_called_once
    (w wm : World) (env env' : string) (r : FetchOutcome) (es : list Event)
    (Hfresh : _streamStartedOnce w = false)
    (Hack : acks r = true)
    (Hnostop : forallb not_stop es = true)
    (Hrun : run (CallStartLive env :: FetchDone (nextId w) r :: es) w = Some wm) :
  starterCalls (startBinanceUserStreamLive env w) = S (starterCalls w)
  /\ _streamStartedOnce wm = true
  /\ starterCalls wm = S (starterCalls w)
  /\ startBinanceUserStreamLive env' wm
     = connectUserStreamWS env' (setConnDot "pending" wm)
  /\ starterCalls (startBinanceUserStreamLive env' wm) = S (starterCalls w).
Proof.
  assert (H1 : starterCalls (startBinanceUserStreamLive env w) = S (starterCalls w)).
  { unfold startBinanceUserStreamLive. simpl. rewrite Hfresh. reflexivity. }
  simpl in Hrun.
  assert (Hf : fetches (startBinanceUserStreamLive env w) !! nextId w
               = Some (StartFetch env)).
  { unfold startBinanceUserStreamLive. simpl. rewrite Hfresh. simpl.
    apply lookup_insert_eq. }
  rewrite Hf in Hrun.
  set (w1 := with_fetches _ _) in Hrun.
  assert (Hc1 : starterCalls w1 = S (starterCalls w)) by (subst w1; exact H1).
  destruct (resume_cases env r w1) as [line [[_ Heq]|[Hno _]]];
    [|rewrite ensure_resume_fst in Hno; congruence].
  rewrite Heq in Hrun.
  set (w2 := connectUserStreamWS _ _) in Hrun.
  assert (Hst2 : _streamStartedOnce w2 = true) by (subst w2; frame).
  assert (Hc2 : starterCalls w2 = starterCalls w1) by (subst w2; frame).
  destruct (run_started es w2 wm Hrun Hnostop Hst2) as [Hstm Hcm].
  assert (Hsecond : startBinanceUserStreamLive env' wm
                    = connectUserStreamWS env' (setConnDot "pending" wm)).
  { unfold startBinanceUserStreamLive. simpl. rewrite Hstm. reflexivity. }
  repeat apply conj; try assumption.
  - congruence.
  - rewrite Hsecond. transitivity (starterCalls wm); [frame|congruence].
Qed.

(** Outside the condition of C4: a start that was refused is tried again
    by the next call, and a second call made before the first answer sends
    a request of its own. *)
Example starter_called_again :
  starterCalls
    <$> run [CallStartLive "testnet"; FetchDone 1 (Body unauthorized);
             CallStartLive "testnet"] (initial false) = Some 2
  /\ starterCalls
       <$> run [CallStartLive "testnet"; CallStartLive "testnet"] (initial false)
     = Some 2.
Proof. split; vm_compute; reflexivity. Qed.

Lemma starter_called_once_witness :
  exists wm,
    run (CallStartLive "testnet" :: FetchDone 1 (Body ok_body) :: failed_connection)
      (initial false) = Some wm
    /\ starterCalls (startBinanceUserStreamLive "testnet" wm) = 1.
Proof.
  destruct (run (CallStartLive "testnet" :: FetchDone 1 (Body ok_body) :: failed_connection)
              (initial false)) as [wm|] eqn:Hrun;
    [|vm_compute in Hrun; discriminate].
  exists wm. split; [reflexivity|].
  exact (proj2 (proj2 (proj2 (proj2
    (starter_called_once (initial false) wm "testnet" "testnet" (Body ok_body)
       failed_connection eq_refl eq_refl eq_refl Hrun))))).
Defined.

(** ** A start that is refused *)

Ltac intervals :=
  let H := fresh "H" in
  unfold intervals_sub; intros ? ? ?; frame; intros H;
  repeat first
    [ assumption
    | apply lookup_delete_Some in H as [_ H]
    | apply lookup_insert_Some in H as [[_ H]|[_ H]]; [discriminate|] ].

Lemma intervals_sub_refl w : intervals_sub w w.
Proof. intros t env p H. exact H. Qed.

Lemma intervals_sub_trans w1 w2 w3 :
  intervals_sub w3 w2 -> intervals_sub w2 w1 -> intervals_sub w3 w1.
Proof. intros H32 H21 t env p H. eauto. Qed.

Lemma intervals_closeUserStreamWS w : intervals_sub (closeUserStreamWS w) w.
Proof. intervals. Qed.

Lemma intervals_stopKeepalive w : intervals_sub (stopKeepalive w) w.
Proof. intervals. Qed.

Lemma intervals_connectUserStreamWS env w : intervals_sub (connectUserStreamWS env w) w.
Proof. intervals. Qed.

Lemma intervals_startBinanceUserStreamLive env w :
  intervals_sub (startBinanceUserStreamLive env w) w.
Proof. intervals. Qed.

Lemma intervals_message_effect w w' : message_effect w w' -> intervals_sub w' w.
Proof. intros []; intervals. Qed.

Lemma resume_refused env r w :
  acks r = false ->
  exists line,
    startBinanceUserStreamLive_resume env r w
    = closeUserStreamWS (stopKeepalive (setConnDot "fail" (appendWsLog line w))).
Proof.
  intros Hn. destruct (resume_cases env r w) as [line [[Hy _]|[_ Heq]]].
  - rewrite ensure_resume_fst in Hy. congruence.
  - eauto.
Qed.

(** An interval appears only when an acknowledged start resumes. *)
Lemma interval_only_after_ack e w w' :
  step e w = Some w' ->
  intervals_sub w' w \/ exists f r, e = FetchDone f r /\ acks r = true.
Proof.
  intros H. destruct e; simpl in H.
  - left. simplify_eq. apply intervals_startBinanceUserStreamLive.
  - left. simplify_eq. intervals.
  - destruct (acks r) eqn:Ha; [right; eauto|left].
    repeat case_match; simplify_eq.
    + destruct (resume_refused env r (with_fetches (delete f (fetches w)) w) Ha)
        as [line ->]. intervals.
    + intervals.
  - left. repeat case_match; simplify_eq. intervals.
  - left. repeat case_match; simplify_eq.
    destruct (onmessage _ ev w) as [w1|err] eqn:Hm; simpl;
      [|apply intervals_sub_refl].
    apply intervals_message_effect, onmessage_effect with (env := sockEnv s0) (ev := ev).
    exact Hm.
  - left. repeat case_match; simplify_eq. intervals.
  - left. repeat case_match; simplify_eq; intervals.
  - left. repeat case_match; simplify_eq.
    + eapply intervals_sub_trans; [apply intervals_startBinanceUserStreamLive|].
      intervals.
    + intervals.
  - left. repeat case_match; simplify_eq. intervals.
Qed.

Lemma no_interval_sub w' w : intervals_sub w' w -> no_interval w -> no_interval w'.
Proof. intros Hs Hn t env p H. exact (Hn t env p (Hs t env p H)). Qed.

(** C5: when the answer awaited by [startLive] is not an acknowledgement,
    the call ends with the indicator at fail, no keepalive interval, no
    socket handle and no socket connecting or open; it makes no socket,
    timer or request.  No task other than the resumption of an
    acknowledged start makes a keepalive interval, and in a reachable world
    an interval is active only in a started session. *)
Theorem refused_start_halts
    (w : World) (f : positive) (env : string) (r : FetchOutcome)
    (Hreach : reachable w)
    (Hpending : fetches w !! f = Some (StartFetch env))
    (Hnack : acks r = false) :
  exists w',
    step (FetchDone f r) w = Some w'
    /\ connDot w' = red
    /\ _keepaliveTimer w' = None /\ no_interval w'
    /\ _userStreamWS w' = None /\ no_live w'
    /\ dom (sockets w') = dom (sockets w)
    /\ nextId w' = nextId w
    /\ _streamStartedOnce w' = _streamStartedOnce w
    /\ (forall e w1 w2, step e w1 = Some w2 ->
          intervals_sub w2 w1 \/ exists f' r', e = FetchDone f' r' /\ acks r' = true)
    /\ (forall t env' p, timers w !! t = Some (Interval env' p) ->
          _streamStartedOnce w = true).
Proof.
  pose proof (reachable_Inv w Hreach) as HI.
  simpl. rewrite Hpending.
  set (w0 := with_fetches (delete f (fetches w)) w).
  destruct (resume_refused env r w0 Hnack) as [line Heq].
  eexists. split; [reflexivity|]. rewrite Heq. clear Heq.
  set (w1 := setConnDot "fail" (appendWsLog line w0)).
  assert (HI1 : Inv w1).
  { subst w1 w0. by apply Inv_setConnDot, Inv_appendWsLog, Inv_with_fetches_delete. }
  destruct (Inv_stopKeepalive w1 HI1) as (HI2 & Hni & Hk).
  destruct (Inv_closeUserStreamWS (stopKeepalive w1) HI2) as (_ & Hnl & Hws & _).
  repeat apply conj.
  - frame.
  - revert Hk. generalize (stopKeepalive w1). intros w2 Hk. frame.
  - eapply no_interval_sub; [apply intervals_closeUserStreamWS|exact Hni].
  - exact Hws.
  - exact Hnl.
  - unfold closeUserStreamWS, stopKeepalive. subst w1 w0. simpl.
    repeat (match goal with
            | |- context [match ?x with _ => _ end] => destruct x eqn:?
            end; simpl); try reflexivity; apply dom_alter_L.
  - frame.
  - frame.
  - apply interval_only_after_ack.
  - intros t env' p Ht. apply (inv_started w HI).
    rewrite (inv_interval w HI t env' p Ht). eauto.
Qed.

Lemma refused_start_halts_witness :
  exists w w',
    run [CallStartLive "testnet"] (initial false) = Some w
    /\ step (FetchDone 1 (Body unauthorized)) w = Some w'
    /\ connDot w' = red
    /\ _keepaliveTimer w' = None
    /\ sockets w' = ∅.
Proof.
  destruct (run [CallStartLive "testnet"] (initial false)) as [w|] eqn:Hrun;
    [|vm_compute in Hrun; discriminate].
  assert (Hp : fetches w !! 1%positive = Some (StartFetch "testnet")).
  { vm_compute in Hrun. injection Hrun as <-. reflexivity. }
  destruct (refused_start_halts w 1 "testnet" (Body unauthorized)
              (run_reachable _ _ _ (reach_initial false) Hrun) Hp eq_refl)
    as (w' & Hs & Hdot & Hk & _ & _ & _ & Hdom & _).
  exists w, w'. repeat apply conj; try assumption; try reflexivity.
  apply dom_empty_iff_L. rewrite Hdom.
  vm_compute in Hrun. injection Hrun as <-. reflexivity.
Defined.

(** ** Dispatch of a parsed message *)

Lemma is_str_eq v s : is_str v s = true -> v = Some (JStr s).
Proof.
  destruct v as [[]|]; simpl; try discriminate.
  intros H. apply String.eqb_eq in H. by subst.
Qed.

Lemma tag_of_status ty : tag_of ty = tag_status <-> ty = Some (JStr "status").
Proof.
  split; [|intros ->; reflexivity].
  unfold tag_of. intros H. repeat case_match; try discriminate.
  by apply is_str_eq.
Qed.

Lemma tag_of_error ty : tag_of ty = tag_error <-> ty = Some (JStr "error").
Proof.
  split; [|intros ->; reflexivity].
  unfold tag_of. intros H. repeat case_match; try discriminate.
  by apply is_str_eq.
Qed.

Lemma tag_of_binance_event ty :
  tag_of ty = tag_binance_event <-> ty = Some (JStr "binance_event").
Proof.
  split; [|intros ->; reflexivity].
  unfold tag_of. intros H. repeat case_match; try discriminate.
  by apply is_str_eq.
Qed.

Arguments balance_event : simpl never.

Lemma balance_event_printable v : balance_event v = true -> printable v = true.
Proof.
  unfold balance_event. intros H. apply orb_prop in H as [H|H];
    apply is_str_eq in H; injection H as ->; reflexivity.
Qed.

Ltac binds :=
  repeat (match goal with
          | |- context [mbind _ ?c] => destruct c eqn:?
          | |- context [if ?c then _ else _] => destruct c eqn:?
          end; simpl).

Lemma deliver_timers env w msg :
  timers (deliver env w msg)
  = if qualifies msg then <[nextId w := refresh_timer]> (timers w) else timers w.
Proof.
  unfold deliver, qualifies, onmessage.
  destruct (getProp msg "type") as [ty|e]; simpl; [|reflexivity].
  destruct (is_str ty "hello") eqn:Hh.
  { apply is_str_eq in Hh as ->. simpl. binds; reflexivity. }
  destruct (is_str ty "status") eqn:Hs.
  { apply is_str_eq in Hs as ->. simpl. binds; reflexivity. }
  destruct (is_str ty "error") eqn:He.
  { apply is_str_eq in He as ->. simpl. binds; reflexivity. }
  destruct (is_str ty "binance_event") eqn:Hb; simpl; [|reflexivity].
  destruct (eventType_of msg) as [et|e]; simpl; [|reflexivity].
  destruct (balance_event et) eqn:Hq.
  - unfold template. simpl. rewrite (balance_event_printable et Hq). reflexivity.
  - destruct (template _); reflexivity.
Qed.

Lemma Inv_deliver env w msg : Inv w -> Inv (deliver env w msg).
Proof.
  intros HI. unfold deliver.
  destruct (onmessage env (Json msg) w) as [w'|e] eqn:Hm; simpl; [|exact HI].
  eapply Inv_message_effect; [eapply onmessage_effect; exact Hm|exact HI].
Qed.

Lemma deliver_count env w msg :
  Inv w ->
  count_timers is_refresh (deliver env w msg)
  = (if qualifies msg then 1 else 0) + count_timers is_refresh w.
Proof.
  intros HI. unfold count_timers. rewrite deliver_timers.
  destruct (qualifies msg); [|reflexivity].
  rewrite map_filter_insert_True by reflexivity.
  rewrite map_size_insert_None; [reflexivity|].
  apply map_lookup_filter_None. left. apply (inv_timers_fresh w HI). lia.
Qed.

Lemma deliver_all_count env msgs : forall w,
  Inv w ->
  count_timers is_refresh (deliver_all env msgs w)
  = length (List.filter qualifies msgs) + count_timers is_refresh w.
Proof.
  induction msgs as [|msg msgs IH]; intros w HI; [reflexivity|].
  simpl. rewrite IH by (by apply Inv_deliver).
  rewrite deliver_count by exact HI.
  destruct (qualifies msg); simpl; lia.
Qed.

Lemma qualifies_spec msg :
  qualifies msg = true
  <-> getProp msg "type" = Normal (Some (JStr "binance_event"))
      /\ (eventType_of msg = Normal (JStr "outboundAccountPosition")
          \/ eventType_of msg = Normal (JStr "balanceUpdate")).
Proof.
  unfold qualifies. split.
  - destruct (getProp msg "type") as [ty|e]; [|discriminate].
    intros H. apply andb_prop in H as [Hty Het].
    apply is_str_eq in Hty as ->. split; [reflexivity|].
    destruct (eventType_of msg) as [et|e]; [|discriminate].
    unfold balance_event in Het. apply orb_prop in Het as [H|H];
      apply is_str_eq in H; injection H as ->; auto.
  - intros [-> [-> | ->]]; reflexivity.
Qed.

(** C6: a message schedules a balance refresh exactly when its tag is
    [binance_event] and its inner event type is [outboundAccountPosition]
    or [balanceUpdate]; it then sets one timer of 400 ms, and otherwise
    leaves the timers as they were.  Messages delivered one after the
    other add as many pending refresh timers as there are qualifying
    messages among them. *)
Theorem one_refresh_per_balance_event
    (env : string) (w : World) (msgs : list JValue)
    (Hreach : reachable w) :
  (forall msg,
      qualifies msg = true
      <-> getProp msg "type" = Normal (Some (JStr "binance_event"))
          /\ (eventType_of msg = Normal (JStr "outboundAccountPosition")
              \/ eventType_of msg = Normal (JStr "balanceUpdate")))
  /\ (forall msg,
        timers (deliver env w msg)
        = if qualifies msg
          then <[nextId w := Timeout CbLoadBalances 400%float]> (timers w)
          else timers w)
  /\ (forall msg,
        count_timers is_refresh (deliver env w msg)
        = (if qualifies msg then 1 else 0) + count_timers is_refresh w)
  /\ count_timers is_refresh (deliver_all env msgs w)
     = length (List.filter qualifies msgs) + count_timers is_refresh w.
Proof.
  pose proof (reachable_Inv w Hreach) as HI.
  repeat apply conj.
  - apply qualifies_spec.
  - intros msg. apply deliver_timers.
  - intros msg. by apply deliver_count.
  - by apply deliver_all_count.
Qed.

Lemma one_refresh_per_balance_event_witness :
  exists w,
    run session_open (initial false) = Some w
    /\ count_timers is_refresh
         (deliver_all "testnet" [balanceUpdate; executionReport; balanceUpdate] w) = 2.
Proof.
  destruct (run session_open (initial false)) as [w|] eqn:Hrun;
    [|vm_compute in Hrun; discriminate].
  exists w. split; [reflexivity|].
  destruct (one_refresh_per_balance_event "testnet" w
              [balanceUpdate; executionReport; balanceUpdate]
              (run_reachable _ _ _ (reach_initial false) Hrun)) as (_ & _ & _ & ->).
  vm_compute in Hrun. injection Hrun as <-. reflexivity.
Defined.

Lemma step_WsMessage s k msg w :
  sockets w !! s = Some k -> readyState k = OPEN ->
  step (WsMessage s (Json msg)) w = Some (deliver (sockEnv k) w msg).
Proof. intros Hs Hr. simpl. rewrite Hs, Hr. reflexivity. Qed.

(** ** Status and error envelopes *)

Lemma getPropOpt_Some msg k v :
  getPropOpt msg k = Some v -> exists kvs, msg = JObj kvs /\ assoc k kvs = Some v.
Proof. destruct msg; simpl; try discriminate. eauto. Qed.

Ltac shape H :=
  match type of H with
  | absent_or_bool ?v = true => destruct v as [[| [|] | | | |]|]; try discriminate H
  end; clear H.

Ltac status_indicator Hc kvs :=
  match goal with
  | |- (connDot ?x = green <-> _) /\ _ =>
      let H1 := fresh in let H2 := fresh in let H3 := fresh in
      destruct (Hc x) as (H1 & H2 & H3);
      [by destruct (truthy (assoc "connected" kvs))|];
      split; [exact H1|]; split; [exact H2|]; split; [exact H3|];
      split; [reflexivity|];
      by destruct (truthy (assoc "connected" kvs))
  end.

(** C7, as amended: on a status envelope the handler returns, once the
    values it writes into the log line ([env], and [phase] when it is
    truthy) have a text conversion, with the indicator at ok exactly when
    [connected] is truthy and at fail otherwise; where [connected] is a
    boolean or is missing, that is to say ok exactly when it is [true].
    On an error envelope whose [error] has a text conversion it returns
    with the indicator at fail.  In both cases one line is added to the log
    and nothing but the log and the indicator changes. *)
Theorem status_and_error_set_indicator
    (env : string) (msg : JValue) (w : World)
    (Hprint : forallb printable (interpolated env msg) = true) :
  (getPropOpt msg "type" = Some (JStr "status") ->
     exists w' line,
       onmessage env (Json msg) w = Normal w'
       /\ (connDot w' = green <-> truthy (getPropOpt msg "connected") = true)
       /\ (connDot w' = red <-> truthy (getPropOpt msg "connected") = false)
       /\ (absent_or_bool (getPropOpt msg "connected") = true ->
             (connDot w' = green <-> getPropOpt msg "connected" = Some (JBool true))
             /\ (connDot w' = red <-> getPropOpt msg "connected" <> Some (JBool true)))
       /\ wsLog w' = line :: wsLog w
       /\ w' = with_connDot (connDot w') (with_wsLog (wsLog w') w))
  /\ (getPropOpt msg "type" = Some (JStr "error") ->
        exists w' line,
          onmessage env (Json msg) w = Normal w'
          /\ connDot w' = red
          /\ wsLog w' = line :: wsLog w
          /\ w' = with_connDot red (with_wsLog (wsLog w') w)).
Proof.
  split; intros Hty; apply getPropOpt_Some in Hty as (kvs & -> & Hty);
    unfold interpolated, tag_of in Hprint; simpl in Hprint; rewrite Hty in Hprint;
    simpl in Hprint; simpl; rewrite Hty; simpl; unfold template.
  - assert (Hc : forall w' : World,
               connDot w' = (if truthy (assoc "connected" kvs) then green else red) ->
               (connDot w' = green <-> truthy (assoc "connected" kvs) = true)
               /\ (connDot w' = red <-> truthy (assoc "connected" kvs) = false)
               /\ (absent_or_bool (assoc "connected" kvs) = true ->
                     (connDot w' = green <-> assoc "connected" kvs = Some (JBool true))
                     /\ (connDot w' = red <-> assoc "connected" kvs <> Some (JBool true)))).
    { intros w' ->. split_and!.
      - destruct (truthy (assoc "connected" kvs)); split; congruence.
      - destruct (truthy (assoc "connected" kvs)); split; congruence.
      - intros Hb. shape Hb; simpl; split; split; congruence. }
    destruct (truthy (assoc "phase" kvs)); simpl in Hprint.
    + apply andb_prop in Hprint as [Hp1 Hp2]. apply andb_prop in Hp2 as [Hp2 _].
      simpl. rewrite Hp1. simpl. rewrite Hp2, Hp1. simpl.
      eexists _, _. split; [reflexivity|].
      status_indicator Hc kvs.
    + apply andb_prop in Hprint as [Hp2 _].
      simpl. rewrite Hp2. simpl.
      eexists _, _. split; [reflexivity|].
      status_indicator Hc kvs.
  - apply andb_prop in Hprint as [Hp _]. simpl. rewrite Hp. simpl.
    eexists _, _. split_and!; reflexivity.
Qed.

Lemma status_and_error_set_indicator_witness :
  (exists w',
     onmessage "testnet" (Json (status_msg true)) (initial false) = Normal w'
     /\ connDot w' = green)
  /\ (exists w',
        onmessage "testnet" (Json error_numeric) connected_world = Normal w'
        /\ connDot w' = red).
Proof.
  split.
  - destruct (status_and_error_set_indicator "testnet" (status_msg true) (initial false)
                eq_refl) as [Hs _].
    destruct (Hs eq_refl) as (w' & line & Hm & Hg & _).
    exists w'. split; [exact Hm|]. apply Hg. reflexivity.
  - destruct (status_and_error_set_indicator "testnet" error_numeric connected_world
                eq_refl) as [_ He].
    destruct (He eq_refl) as (w' & line & Hm & Hr & _).
    exists w'. split; [exact Hm|exact Hr].
Defined.

(** C7, as stated, fails: a status envelope whose [connected] is the
    number 1 or the text [false] is not [true] and sets the indicator to
    ok; an error envelope whose [error] has no text conversion makes the
    handler throw before it reaches the indicator, which stays at ok. *)
Lemma status_and_error_counterexample :
  getPropOpt status_connected_1 "connected" <> Some (JBool true)
  /\ connDot (deliver "testnet" (initial false) status_connected_1) = green
  /\ getPropOpt status_connected_text "connected" <> Some (JBool true)
  /\ connDot (deliver "testnet" (initial false) status_connected_text) = green
  /\ getPropOpt error_unprintable "type" = Some (JStr "error")
  /\ onmessage "testnet" (Json error_unprintable) connected_world = Throw TypeError
  /\ connDot (deliver "testnet" connected_world error_unprintable) = green.
Proof. split_and!; first [discriminate | reflexivity]. Qed.

(** ** The result of the starter *)

Lemma getProp_nonnull msg k : msg <> JNull -> getProp msg k = Normal (getPropOpt msg k).
Proof. intros H. destruct msg; simpl; first [reflexivity | congruence]. Qed.

(** C8, as amended: the starter returns [true] exactly when the request
    settles with a response whose [ok] is truthy, which for a boolean or
    missing [ok] is to say [ok] is [true]; the log then gains the line of
    the start.  In every other case it returns [false] and the log gains
    one line of failure: the [fetch_failed] line when the request is
    rejected or an exception is raised while the response is read, the
    start error line with the response's [error], or [unknown], when the
    response is read and its [ok] is falsy.  Nothing but the log changes,
    and the function is total: nothing is thrown to its caller. *)
Theorem ensure_started_result (env : string) (r : FetchOutcome) (w : World) :
  let res := ensureBinanceUserStreamStarted_resume env r w in
  (fst res = true <-> exists data, r = Body data /\ truthy (getPropOpt data "ok") = true)
  /\ (forall data, r = Body data -> absent_or_bool (getPropOpt data "ok") = true ->
        (fst res = true <-> getPropOpt data "ok" = Some (JBool true)))
  /\ (fst res = true ->
        wsLog (snd res) = [Txt "User stream started ("; Txt env; Txt ")"] :: wsLog w)
  /\ (fst res = false ->
        wsLog (snd res) = start_failed :: wsLog w
        \/ exists data,
             r = Body data
             /\ wsLog (snd res)
                = [Txt "User stream start error: ";
                   Val (or_else (getPropOpt data "error") (JStr "unknown"))] :: wsLog w)
  /\ (r = Rejected -> fst res = false /\ wsLog (snd res) = start_failed :: wsLog w)
  /\ (forall data e,
        r = Body data -> ensureBinanceUserStreamStarted_try env data w = Throw e ->
        fst res = false /\ wsLog (snd res) = start_failed :: wsLog w)
  /\ (forall data,
        r = Body data -> data <> JNull ->
        truthy (getPropOpt data "ok") = false ->
        printable (or_else (getPropOpt data "error") (JStr "unknown")) = true ->
        fst res = false
        /\ wsLog (snd res)
           = [Txt "User stream start error: ";
              Val (or_else (getPropOpt data "error") (JStr "unknown"))] :: wsLog w)
  /\ snd res = with_wsLog (wsLog (snd res)) w.
Proof.
  simpl. split_and!.
  - rewrite ensure_resume_fst. destruct r as [|data]; simpl.
    + split; [discriminate|]. intros (data & H & _). discriminate.
    + split; [eauto|]. intros (data' & H & Ht). by simplify_eq.
  - intros data -> Hb. rewrite ensure_resume_fst. simpl.
    shape Hb; simpl; split; congruence.
  - destruct r as [|data]; simpl; [discriminate|].
    unfold ensureBinanceUserStreamStarted_try.
    destruct data; simpl; try discriminate.
    destruct (truthy (assoc "ok" kvs)); simpl; [reflexivity|].
    destruct (template _); simpl; discriminate.
  - intros Hf. destruct r as [|data]; simpl in *; [by left|].
    unfold ensureBinanceUserStreamStarted_try in *.
    destruct data; simpl in *; try (by left);
      try (right; eexists; split; reflexivity).
    destruct (truthy (assoc "ok" kvs)); simpl in *; [discriminate|].
    unfold template in *. destruct (forallb _ _); simpl in *; [right; eauto|by left].
  - intros ->. split; reflexivity.
  - intros data e -> H. simpl. rewrite H. split; reflexivity.
  - intros data -> Hn Hok Hp.
    unfold ensureBinanceUserStreamStarted_resume, ensureBinanceUserStreamStarted_try.
    rewrite !(getProp_nonnull data) by exact Hn. simpl. rewrite Hok. simpl.
    unfold template. simpl. rewrite Hp. simpl. split; reflexivity.
  - destruct r as [|data]; simpl; [reflexivity|].
    unfold ensureBinanceUserStreamStarted_try.
    destruct (getProp data "ok") as [o|e]; simpl; [|reflexivity].
    destruct (truthy o); simpl; [reflexivity|].
    destruct (getProp data "error") as [err|e]; simpl; [|reflexivity].
    unfold template. destruct (forallb _ _); reflexivity.
Qed.

Lemma ensure_started_result_witness :
  fst (ensureBinanceUserStreamStarted_resume "testnet" (Body unauthorized) (initial false))
  = false
  /\ wsLog (snd (ensureBinanceUserStreamStarted_resume "testnet" (Body unauthorized)
                   (initial false)))
     = [[Txt "User stream start error: "; Val (JStr "unauthorized")]].
Proof.
  assert (Hn : unauthorized <> JNull) by discriminate.
  destruct (ensure_started_result "testnet" (Body unauthorized) (initial false))
    as (_ & _ & _ & _ & _ & _ & H & _).
  exact (H unauthorized eq_refl Hn eq_refl eq_refl).
Defined.

(** C8, as stated, fails: a response whose [ok] is the text [false], or
    the number 1, is not [ok = true], and the starter returns [true] on
    it. *)
Lemma ensure_started_counterexample :
  getPropOpt ok_text_false "ok" <> Some (JBool true)
  /\ fst (ensureBinanceUserStreamStarted_resume "testnet" (Body ok_text_false)
            (initial false)) = true
  /\ fst (ensureBinanceUserStreamStarted_resume "testnet"
            (Body (JObj [("ok", JNum 1%float)])) (initial false)) = true.
Proof. split_and!; first [discriminate | reflexivity]. Qed.

(** ** A transport error followed by the close *)

Lemma count_insert_reconnect (w : World) env d :
  Inv w ->
  size (filter (fun kv => is_reconnect (snd kv) = true)
          (<[nextId w := Timeout (CbReconnect env) d]> (timers w)))
  = S (count_timers is_reconnect w).
Proof.
  intros HI. unfold count_timers.
  rewrite map_filter_insert_True by reflexivity.
  rewrite map_size_insert_None; [reflexivity|].
  apply map_lookup_filter_None. left. apply (inv_timers_fresh w HI). lia.
Qed.

(** C9: the error handler writes one log line and sets the indicator to
    fail, and nothing else: the timers, the delay, the started flag, the
    handles, the sockets and the requests are as before.  The close event
    that follows sets the one reconnect timer of the pair, with the delay
    of before the pair, and records its handle. *)
Theorem socket_error_schedules_nothing
    (w : World) (s : positive) (k : Socket) (ev : CloseEvent)
    (Hreach : reachable w)
    (Hsock : sockets w !! s = Some k)
    (Hstate : readyState k <> CLOSED) :
  exists w1 w2,
    step (WsError s) w = Some w1
    /\ step (WsClose s ev) w1 = Some w2
    /\ w1 = with_connDot red (with_wsLog ([Txt "WS error (socket)"] :: wsLog w) w)
    /\ timers w1 = timers w
    /\ count_timers is_reconnect w1 = count_timers is_reconnect w
    /\ _reconnectDelayMs w1 = _reconnectDelayMs w
    /\ _streamStartedOnce w1 = _streamStartedOnce w
    /\ _userStreamWS w1 = _userStreamWS w
    /\ _userStreamReconnectTimer w1 = _userStreamReconnectTimer w
    /\ _keepaliveTimer w1 = _keepaliveTimer w
    /\ sockets w1 = sockets w
    /\ fetches w1 = fetches w
    /\ timers w2
       = <[nextId w := Timeout (CbReconnect (sockEnv k)) (_reconnectDelayMs w)]> (timers w)
    /\ count_timers is_reconnect w2 = S (count_timers is_reconnect w)
    /\ _userStreamReconnectTimer w2 = Some (nextId w).
Proof.
  pose proof (reachable_Inv w Hreach) as HI.
  exists (onerror w), (onclose (sockEnv k) ev (set_readyState s CLOSED (onerror w))).
  repeat apply conj; try reflexivity.
  - simpl. rewrite Hsock. reflexivity.
  - simpl. rewrite Hsock. destruct (readyState k); try reflexivity. congruence.
  - unfold count_timers. simpl. by apply count_insert_reconnect.
Qed.

Lemma socket_error_schedules_nothing_witness :
  exists w w1 w2,
    run session_open (initial false) = Some w
    /\ step (WsError 3) w = Some w1
    /\ step (WsClose 3 ev1006) w1 = Some w2
    /\ count_timers is_reconnect w1 = 0
    /\ count_timers is_reconnect w2 = 1.
Proof.
  destruct (run session_open (initial false)) as [w|] eqn:Hrun;
    [|vm_compute in Hrun; discriminate].
  assert (Hs : sockets w !! 3%positive = Some (mkSocket OPEN "testnet" false)).
  { vm_compute in Hrun. injection Hrun as <-. reflexivity. }
  destruct (socket_error_schedules_nothing w 3 _ ev1006
              (run_reachable _ _ _ (reach_initial false) Hrun) Hs)
    as (w1 & w2 & H1 & H2 & _ & _ & Hc1 & _ & _ & _ & _ & _ & _ & _ & _ & Hc2 & _);
    [discriminate|].
  exists w, w1, w2. repeat apply conj; try assumption; try reflexivity.
  - rewrite Hc1. vm_compute in Hrun. injection Hrun as <-. reflexivity.
  - rewrite Hc2. vm_compute in Hrun. injection Hrun as <-. reflexivity.
Defined.

(** ** The message handler on arbitrary data *)

Lemma or_else_nonnull a b : b <> JNull -> or_else a b <> JNull.
Proof.
  intros Hb. unfold or_else. destruct a as [v|]; [|exact Hb].
  destruct (truthy (Some v)) eqn:Ht; [|exact Hb].
  intros ->. discriminate.
Qed.

Lemma eventType_of_nonnull msg :
  msg <> JNull -> eventType_of msg = Normal (inner_type msg).
Proof.
  intros Hn. unfold eventType_of, inner_type.
  rewrite (getProp_nonnull msg) by exact Hn. simpl.
  rewrite !getProp_nonnull by (by apply or_else_nonnull).
  reflexivity.
Qed.

Lemma inner_type_no_data msg :
  truthy (getPropOpt msg "data") = false -> inner_type msg = JStr "unknown_event".
Proof.
  intros Hd. unfold inner_type.
  assert (or_else (getPropOpt msg "data") (JObj []) = JObj []) as ->; [|reflexivity].
  unfold or_else. destruct (getPropOpt msg "data"); [rewrite Hd|]; reflexivity.
Qed.

Lemma template_ok (l : Line) : forallb piece_ok l = true -> template l = Normal l.
Proof. unfold template. by intros ->. Qed.

(** C10, as amended: data that is not JSON is logged, cut to 200
    characters, and dropped.  On a parsed value other than [null] whose
    logged fields have a text conversion the handler returns: a status
    envelope sets the indicator by the truthiness of [connected] (fail
    when it is missing or falsy, ok when it is truthy); an error envelope
    sets it to fail; a [binance_event] sets it to ok and, when [data] is
    missing or falsy, logs [unknown_event] and sets no timer; any other
    tag leaves one log line holding the first 220 characters of the
    message and changes nothing else. *)
Theorem message_handler_returns
    (env : string) (msg : JValue) (w : World)
    (Hnull : msg <> JNull)
    (Hprint : forallb printable (interpolated env msg) = true) :
  (forall raw,
      onmessage env (NotJson raw) w
      = Normal (appendWsLog [Txt "WS non-json: "; Txt (substring 0 200 raw)] w))
  /\ exists w',
       onmessage env (Json msg) w = Normal w'
       /\ match tag_of (getPropOpt msg "type") with
          | tag_hello => exists line, w' = appendWsLog line w
          | tag_status =>
              connDot w' = (if truthy (getPropOpt msg "connected") then green else red)
              /\ exists line,
                   w' = setConnDot
                          (if truthy (getPropOpt msg "connected") then "ok" else "fail")
                          (appendWsLog line w)
          | tag_error => exists line, w' = setConnDot "fail" (appendWsLog line w)
          | tag_binance_event =>
              connDot w' = green
              /\ (truthy (getPropOpt msg "data") = false ->
                    w' = setConnDot "ok"
                           (appendWsLog [Txt "Event: "; Val (JStr "unknown_event")] w))
          | tag_other => w' = appendWsLog [Txt "WS message: "; JsonPrefix msg 220] w
          end.
Proof.
  split; [reflexivity|].
  unfold onmessage, interpolated, tag_of in *.
  rewrite !(getProp_nonnull msg) by exact Hnull. simpl.
  rewrite (eventType_of_nonnull msg Hnull).
  destruct (is_str (getPropOpt msg "type") "hello").
  { simpl in *. apply andb_prop in Hprint as [Hp _].
    rewrite template_ok by (simpl; by rewrite Hp). simpl. eauto. }
  destruct (is_str (getPropOpt msg "type") "status").
  { simpl. destruct (truthy (getPropOpt msg "phase")); simpl in *.
    - apply andb_prop in Hprint as [Hp1 Hp2]. apply andb_prop in Hp2 as [Hp2 _].
      rewrite template_ok by (simpl; by rewrite Hp1). simpl.
      rewrite template_ok by (simpl; by rewrite Hp1, Hp2). simpl.
      eexists. split; [reflexivity|].
      split; [by destruct (truthy (getPropOpt msg "connected"))|eauto].
    - apply andb_prop in Hprint as [Hp2 _].
      rewrite template_ok by (simpl; by rewrite Hp2). simpl.
      eexists. split; [reflexivity|].
      split; [by destruct (truthy (getPropOpt msg "connected"))|eauto]. }
  destruct (is_str (getPropOpt msg "type") "error").
  { simpl in *. apply andb_prop in Hprint as [Hp _].
    rewrite template_ok by (simpl; by rewrite Hp). simpl. eauto. }
  destruct (is_str (getPropOpt msg "type") "binance_event").
  { simpl in *. apply andb_prop in Hprint as [Hp _].
    rewrite template_ok by (simpl; by rewrite Hp). simpl.
    destruct (balance_event (inner_type msg)) eqn:Hq.
    - eexists. split; [reflexivity|]. split; [reflexivity|].
      intros Hd. rewrite (inner_type_no_data msg Hd) in Hq.
      vm_compute in Hq. discriminate.
    - eexists. split; [reflexivity|]. split; [reflexivity|].
      intros Hd. rewrite (inner_type_no_data msg Hd). reflexivity. }
  eauto.
Qed.

Lemma message_handler_returns_witness :
  exists w',
    onmessage "testnet" (Json event_without_data) (initial false) = Normal w'
    /\ connDot w' = green
    /\ wsLog w' = [[Txt "Event: "; Val (JStr "unknown_event")]]
    /\ timers w' = ∅.
Proof.
  assert (Hn : event_without_data <> JNull) by discriminate.
  destruct (message_handler_returns "testnet" event_without_data (initial false)
              Hn eq_refl) as (_ & w' & Hm & Hg & Hw).
  exists w'. split; [exact Hm|]. split; [exact Hg|].
  rewrite (Hw eq_refl). split; reflexivity.
Defined.

(** C10, as stated, fails: a status envelope whose [connected] is the
    number 1 is not boolean and sets the indicator to ok; the parsed value
    [null] makes the handler throw, and so does a hello whose [msg] has no
    text conversion. *)
Lemma message_handler_counterexample :
  (connDot <$> (match onmessage "testnet" (Json status_connected_1) (initial false) with
                | Normal w' => Some w'
                | Throw _ => None
                end)) = Some green
  /\ onmessage "testnet" (Json JNull) (initial false) = Throw TypeError
  /\ onmessage "testnet" (Json hello_unprintable) (initial false) = Throw TypeError.
Proof. split; [|split]; reflexivity. Qed.

(** * Further properties *)

(** ** What the handles name *)

Lemma Named_initial sec : Named (initial sec).
Proof. constructor; simpl; try done. Qed.

(** The fields [Named] reads. *)
Lemma Named_frame w w' :
  _userStreamWS w' = _userStreamWS w ->
  _userStreamReconnectTimer w' = _userStreamReconnectTimer w ->
  _keepaliveTimer w' = _keepaliveTimer w ->
  sockets w' = sockets w -> timers w' = timers w -> nextId w' = nextId w ->
  Named w -> Named w'.
Proof.
  intros E1 E2 E3 E4 E5 E6 []. constructor; rewrite ?E1, ?E2, ?E3, ?E4, ?E5, ?E6; auto.
Qed.

Lemma Named_setConnDot state w : Named w -> Named (setConnDot state w).
Proof. by apply Named_frame. Qed.

Lemma Named_appendWsLog line w : Named w -> Named (appendWsLog line w).
Proof. by apply Named_frame. Qed.

Lemma Named_clearTimer t w : Named w -> Named (clearTimer t w).
Proof.
  intros []. constructor; simpl; auto.
  - intros t' x Hh Hx. apply lookup_delete_Some in Hx as [_ Hx]. eauto.
  - intros t' x Hh Hx. apply lookup_delete_Some in Hx as [_ Hx]. eauto.
  - intros t' env p Hx. apply lookup_delete_Some in Hx as [_ Hx]. eauto.
  - intros t' env d Hx. apply lookup_delete_Some in Hx as [_ Hx]. eauto.
  - intros t' d Hx. apply lookup_delete_Some in Hx as [_ Hx]. eauto.
Qed.

Lemma Named_no_keepalive w : Named w -> Named (with_keepalive None w).
Proof. intros []. constructor; simpl; auto; discriminate. Qed.

Lemma Named_no_reconnect w : Named w -> Named (with_reconnectTimer None w).
Proof. intros []. constructor; simpl; auto; discriminate. Qed.

Lemma Named_no_ws w : Named w -> Named (with_ws None w).
Proof. intros []. constructor; simpl; auto; discriminate. Qed.

Lemma Named_stopKeepalive w : Named w -> Named (stopKeepalive w).
Proof.
  intros HN. unfold stopKeepalive. destruct (_keepaliveTimer w); [|exact HN].
  by apply Named_no_keepalive, Named_clearTimer.
Qed.

Lemma Pos_lt_succ (a b : positive) : (a < b)%positive -> (a < Pos.succ b)%positive /\ a <> b.
Proof. lia. Qed.

Lemma Named_insert_timer x w :
  Named w -> admissible w x ->
  Named (with_nextId (Pos.succ (nextId w)) (with_timers (<[nextId w := x]> (timers w)) w)).
Proof.
  intros [Hro Hko Hr Hk Hp Hrt Hft Hws] Hx. constructor; simpl; auto.
  - intros t Ht. apply Hro in Ht. lia.
  - intros t Ht. apply Hko in Ht. lia.
  - intros t y Ht Hy. pose proof (Hro t Ht).
    rewrite lookup_insert_ne in Hy by lia. eauto.
  - intros t y Ht Hy. pose proof (Hko t Ht).
    rewrite lookup_insert_ne in Hy by lia. eauto.
  - intros t env p Hy. apply lookup_insert_Some in Hy as [[_ ->]|[_ Hy]]; [exact Hx|eauto].
  - intros t env d Hy. apply lookup_insert_Some in Hy as [[_ ->]|[_ Hy]]; [exact Hx|eauto].
  - intros t d Hy. apply lookup_insert_Some in Hy as [[_ ->]|[_ Hy]]; [exact Hx|eauto].
Qed.

Lemma Named_with_reconnectTimer t w :
  Named w -> (t < nextId w)%positive ->
  (forall x, timers w !! t = Some x -> is_reconnect x = true) ->
  Named (with_reconnectTimer (Some t) w).
Proof.
  intros [Hro Hko Hr Hk Hp Hrt Hft Hws] Hlt Hx. constructor; simpl; auto.
  - intros t' Ht. by simplify_eq.
  - intros t' x Ht. simplify_eq. auto.
Qed.

Lemma Named_with_keepalive t w :
  Named w -> (t < nextId w)%positive ->
  (forall x, timers w !! t = Some x -> is_reconnect x = false /\ is_refresh x = false) ->
  Named (with_keepalive (Some t) w).
Proof.
  intros [Hro Hko Hr Hk Hp Hrt Hft Hws] Hlt Hx. constructor; simpl; auto.
  - intros t' Ht. by simplify_eq.
  - intros t' x Ht. simplify_eq. auto.
Qed.

Lemma Named_with_ws s w :
  Named w -> is_Some (sockets w !! s) -> Named (with_ws (Some s) w).
Proof.
  intros [Hro Hko Hr Hk Hp Hrt Hft Hws] Hs. constructor; simpl; auto.
  intros s' E. by simplify_eq.
Qed.

Lemma Named_alter_socket f s w :
  Named w ->
  (forall k, sockEnv (f k) = sockEnv k) ->
  (forall k, sockets w !! s = Some k -> readyState k = CLOSED -> readyState (f k) = CLOSED) ->
  Named (with_sockets (alter f s (sockets w)) w).
Proof.
  intros [Hro Hko Hr Hk Hp Hrt Hft Hws] Henv Hst. constructor; simpl; auto.
  - intros t env d Ht. destruct (Hrt t env d Ht) as (Hd & s' & k & Hs' & He & Hc).
    split; [exact Hd|].
    destruct (decide (s = s')) as [->|Hne].
    + exists s', (f k). rewrite lookup_alter_eq, Hs'. simpl.
      rewrite Henv. auto.
    + exists s', k. rewrite lookup_alter_ne by done. auto.
  - intros s' E. apply Hws in E. destruct E as [k E].
    destruct (decide (s = s')) as [->|Hne].
    + rewrite lookup_alter_eq, E. by eexists.
    + rewrite lookup_alter_ne by done. by eexists.
Qed.

Lemma Named_insert_socket k w :
  Inv w -> Named w ->
  Named (with_nextId (Pos.succ (nextId w))
           (with_sockets (<[nextId w := k]> (sockets w)) w)).
Proof.
  intros HI [Hro Hko Hr Hk Hp Hrt Hft Hws]. constructor; simpl; auto.
  - intros t Ht. apply Hro in Ht. lia.
  - intros t Ht. apply Hko in Ht. lia.
  - intros t env d Ht. destruct (Hrt t env d Ht) as (Hd & s' & k' & Hs' & He & Hc).
    split; [exact Hd|]. exists s', k'. split; [|auto].
    rewrite lookup_insert_ne; [exact Hs'|].
    intros <-. rewrite (inv_sockets_fresh w HI (nextId w)) in Hs' by lia. discriminate.
  - intros s E. apply Hws in E. destruct E as [k' E].
    destruct (decide (nextId w = s)) as [->|Hne].
    + rewrite lookup_insert_eq. by eexists.
    + rewrite lookup_insert_ne by done. by eexists.
Qed.

Lemma Named_fetch f w : Named w -> Named (fetch f w).
Proof.
  intros [Hro Hko Hr Hk Hp Hrt Hft Hws]. constructor; simpl; auto.
  - intros t Ht. apply Hro in Ht. lia.
  - intros t Ht. apply Hko in Ht. lia.
Qed.

Lemma Named_startKeepalive env w : Named w -> Named (startKeepalive env w).
Proof.
  intros HN. unfold startKeepalive. apply Named_stopKeepalive in HN.
  set (w1 := stopKeepalive w) in *. clearbody w1. simpl.
  apply (Named_with_keepalive (nextId w1)
           (with_nextId (Pos.succ (nextId w1))
              (with_timers (<[nextId w1 := Interval env keepalive_period]> (timers w1)) w1))).
  - apply Named_insert_timer; [exact HN|reflexivity].
  - simpl. lia.
  - simpl. intros x. rewrite lookup_insert_eq. intros [= <-]. auto.
Qed.

Lemma Named_ws_close s w : Named w -> Named (ws_close s w).
Proof.
  intros HN. apply Named_alter_socket; [exact HN|reflexivity|].
  intros k _ Hc. simpl. by rewrite Hc.
Qed.

Lemma Named_closeUserStreamWS w : Named w -> Named (closeUserStreamWS w).
Proof.
  intros HN. unfold closeUserStreamWS.
  set (w1 := match _userStreamReconnectTimer w with
             | Some t => with_reconnectTimer None (clearTimer t w)
             | None => w
             end).
  assert (H1 : Named w1).
  { subst w1. destruct (_userStreamReconnectTimer w);
      [apply Named_no_reconnect, Named_clearTimer|]; exact HN. }
  clearbody w1. destruct (_userStreamWS w1); [|exact H1].
  by apply Named_no_ws, Named_ws_close.
Qed.

Lemma Named_connectUserStreamWS env w :
  Inv w -> Named w -> Named (connectUserStreamWS env w).
Proof.
  intros HI HN. unfold connectUserStreamWS.
  destruct (Inv_closeUserStreamWS w HI) as (HI' & _).
  apply Named_closeUserStreamWS in HN.
  set (w1 := closeUserStreamWS w) in *. clearbody w1. simpl.
  apply (Named_with_ws (nextId w1)).
  - apply (Named_frame
             (with_nextId (Pos.succ (nextId w1))
                (with_sockets (<[nextId w1 := mkSocket CONNECTING env (secure w1)]>
                                 (sockets w1)) w1))); try reflexivity.
    by apply Named_insert_socket.
  - simpl. rewrite lookup_insert_eq. by eexists.
Qed.

Lemma Named_onopen s k w :
  Named w -> sockets w !! s = Some k -> readyState k = CONNECTING ->
  Named (onopen (set_readyState s OPEN w)).
Proof.
  intros HN Hs Hr.
  apply (Named_frame (set_readyState s OPEN w)); try reflexivity.
  apply Named_alter_socket; [exact HN|reflexivity|].
  intros k' Hk' Hc. simplify_eq. congruence.
Qed.

Lemma Named_onclose env ev s k w :
  Inv w -> Named w -> sockets w !! s = Some k -> sockEnv k = env ->
  Named (onclose env ev (set_readyState s CLOSED w)).
Proof.
  intros HI HN Hs He.
  assert (H1 : Named (set_readyState s CLOSED w)).
  { apply Named_alter_socket; [exact HN|reflexivity|reflexivity]. }
  set (w1 := set_readyState s CLOSED w) in *.
  assert (Hadm : admissible w1 (Timeout (CbReconnect env) (_reconnectDelayMs w1))).
  { simpl. split; [exact (inv_delay w HI)|].
    exists s, (mkSocket CLOSED (sockEnv k) (sockSecure k)).
    rewrite lookup_alter_eq, Hs. auto. }
  clearbody w1.
  pose proof (Named_insert_timer _ w1 H1 Hadm) as H2.
  unfold onclose. simpl.
  apply (Named_frame
           (with_reconnectTimer (Some (nextId w1))
              (with_nextId (Pos.succ (nextId w1))
                 (with_timers
                    (<[nextId w1 := Timeout (CbReconnect env) (_reconnectDelayMs w1)]>
                       (timers w1)) w1)))); try reflexivity.
  apply Named_with_reconnectTimer; [exact H2|simpl; lia|].
  simpl. intros x. rewrite lookup_insert_eq. by intros [= <-].
Qed.

Lemma Named_message_effect w w' : message_effect w w' -> Named w -> Named w'.
Proof.
  intros [line|line state|line] HN.
  - by apply Named_appendWsLog.
  - by apply Named_setConnDot, Named_appendWsLog.
  - apply (Named_insert_timer (Timeout CbLoadBalances 400%float)
             (setConnDot "ok" (appendWsLog line w))); [|reflexivity].
    by apply Named_setConnDot, Named_appendWsLog.
Qed.

Lemma Named_startBinanceUserStreamLive env w :
  Inv w -> Named w -> Named (startBinanceUserStreamLive env w).
Proof.
  intros HI HN. unfold startBinanceUserStreamLive, ensureBinanceUserStreamStarted_call.
  case_match.
  - apply Named_fetch. by apply (Named_frame (setConnDot "pending" w)), Named_setConnDot.
  - apply Named_connectUserStreamWS; [by apply Inv_setConnDot|by apply Named_setConnDot].
Qed.

Lemma Named_startBinanceUserStreamLive_resume env r w :
  Inv w -> Named w -> Named (startBinanceUserStreamLive_resume env r w).
Proof.
  intros HI HN.
  destruct (resume_cases env r w) as [line [[_ ->]|[_ ->]]].
  - assert (HI1 : Inv (with_started true (appendWsLog line w)))
      by (by apply Inv_with_started_true, Inv_appendWsLog).
    apply Named_connectUserStreamWS.
    + by apply Inv_startKeepalive.
    + apply Named_startKeepalive.
      by apply (Named_frame (appendWsLog line w)), Named_appendWsLog.
  - by apply Named_closeUserStreamWS, Named_stopKeepalive, Named_setConnDot,
      Named_appendWsLog.
Qed.

Lemma Named_stopBinanceUserStream w : Named w -> Named (stopBinanceUserStream w).
Proof.
  intros HN. unfold stopBinanceUserStream.
  apply (Named_frame (closeUserStreamWS (stopKeepalive w))); try reflexivity.
  by apply Named_closeUserStreamWS, Named_stopKeepalive.
Qed.

Lemma Named_step e w w' : Inv w -> Named w -> step e w = Some w' -> Named w'.
Proof.
  intros HI HN H. destruct e; simpl in H.
  - simplify_eq. by apply Named_startBinanceUserStreamLive.
  - simplify_eq. by apply Named_stopBinanceUserStream.
  - repeat case_match; simplify_eq.
    + apply Named_startBinanceUserStreamLive_resume.
      * by apply Inv_with_fetches_delete.
      * by apply (Named_frame w).
    + unfold keepalive_resume.
      repeat case_match; apply Named_appendWsLog; by apply (Named_frame w).
  - repeat case_match; simplify_eq. by eapply Named_onopen.
  - repeat case_match; simplify_eq.
    destruct (onmessage _ ev w) as [w1|err] eqn:Hm; simpl; [|exact HN].
    eapply Named_message_effect; [eapply onmessage_effect; exact Hm|exact HN].
  - repeat case_match; simplify_eq. by apply Named_setConnDot, Named_appendWsLog.
  - repeat case_match; simplify_eq; by eapply Named_onclose.
  - repeat case_match; simplify_eq.
    + apply Named_startBinanceUserStreamLive;
        [by apply Inv_clearTimer|by apply Named_clearTimer].
    + apply (Named_frame (clearTimer t w)); try reflexivity. by apply Named_clearTimer.
  - repeat case_match; simplify_eq. by apply Named_fetch.
Qed.

Theorem reachable_Named w : reachable w -> Named w.
Proof.
  induction 1 as [sec|e w w' Hr IH Hs].
  - apply Named_initial.
  - exact (Named_step e w w' (reachable_Inv w Hr) IH Hs).
Qed.

(** ** Sockets and the keepalive *)

(** X1: in a world the page can reach, a socket that is connecting or
    open is the one [_userStreamWS] names, so there is never a second
    one. *)
Theorem live_socket_is_named
    (w : World) (s : positive) (k : Socket)
    (Hreach : reachable w)
    (Hsock : sockets w !! s = Some k)
    (Hlive : live (readyState k) = true) :
  _userStreamWS w = Some s
  /\ forall s' k', sockets w !! s' = Some k' -> live (readyState k') = true -> s' = s.
Proof.
  pose proof (reachable_Inv w Hreach) as HI.
  pose proof (inv_live w HI s k Hsock Hlive) as Hh.
  split; [exact Hh|].
  intros s' k' Hs' Hl'. pose proof (inv_live w HI s' k' Hs' Hl'). congruence.
Qed.

Lemma live_socket_is_named_witness :
  exists w,
    run restarted (initial false) = Some w
    /\ readyState <$> sockets w !! 3%positive = Some CLOSING
    /\ readyState <$> sockets w !! 4%positive = Some CONNECTING
    /\ _userStreamWS w = Some 4%positive.
Proof.
  destruct (run restarted (initial false)) as [w|] eqn:Hrun;
    [|vm_compute in Hrun; discriminate].
  assert (Hs : sockets w !! 4%positive = Some (mkSocket CONNECTING "testnet" false)).
  { vm_compute in Hrun. injection Hrun as <-. reflexivity. }
  destruct (live_socket_is_named w 4 _ (run_reachable _ _ _ (reach_initial false) Hrun)
              Hs eq_refl) as [Hh _].
  exists w. split; [reflexivity|]. split; [|split; [|exact Hh]].
  - vm_compute in Hrun. injection Hrun as <-. reflexivity.
  - rewrite Hs. reflexivity.
Defined.

(** X2: in a world the page can reach, an active interval is the one
    [_keepaliveTimer] names, it ticks every 25 minutes, the session is
    started, and there is no other interval. *)
Theorem keepalive_interval_is_named
    (w : World) (t : positive) (env : string) (p : float)
    (Hreach : reachable w)
    (Htimer : timers w !! t = Some (Interval env p)) :
  _keepaliveTimer w = Some t
  /\ _streamStartedOnce w = true
  /\ p = 1500000%float
  /\ forall t' env' p', timers w !! t' = Some (Interval env' p') -> t' = t.
Proof.
  pose proof (reachable_Inv w Hreach) as HI.
  pose proof (reachable_Named w Hreach) as HN.
  pose proof (inv_interval w HI t env p Htimer) as Hh.
  split_and!.
  - exact Hh.
  - apply (inv_started w HI). rewrite Hh. by eexists.
  - exact (named_period w HN t env p Htimer).
  - intros t' env' p' Ht'. pose proof (inv_interval w HI t' env' p' Ht'). congruence.
Qed.

Lemma keepalive_interval_is_named_witness :
  exists w,
    run switch_env (initial false) = Some w
    /\ timers w !! 5%positive = Some (Interval "production" 1500000%float)
    /\ timers w !! 2%positive = None
    /\ _keepaliveTimer w = Some 5%positive.
Proof.
  destruct (run switch_env (initial false)) as [w|] eqn:Hrun;
    [|vm_compute in Hrun; discriminate].
  assert (Ht : timers w !! 5%positive = Some (Interval "production" 1500000%float)).
  { vm_compute in Hrun. injection Hrun as <-. reflexivity. }
  destruct (keepalive_interval_is_named w 5 _ _
              (run_reachable _ _ _ (reach_initial false) Hrun) Ht) as [Hh _].
  exists w. split; [reflexivity|]. split; [exact Ht|]. split; [|exact Hh].
  vm_compute in Hrun. injection Hrun as <-. reflexivity.
Defined.

(** X3: stopping twice is stopping once, and so are closing twice and
    stopping the keepalive twice; on the fresh page a stop changes
    nothing. *)
Theorem stop_is_idempotent (w : World) (sec : bool) :
  stopBinanceUserStream (stopBinanceUserStream w) = stopBinanceUserStream w
  /\ closeUserStreamWS (closeUserStreamWS w) = closeUserStreamWS w
  /\ stopKeepalive (stopKeepalive w) = stopKeepalive w
  /\ stopBinanceUserStream (initial sec) = initial sec.
Proof.
  destruct w as [ws rt d st kt so ti fe ni se dot lg br sc].
  unfold stopBinanceUserStream, closeUserStreamWS, stopKeepalive. simpl.
  split_and!; try reflexivity; destruct ws, rt, kt; reflexivity.
Qed.

(** ** Refresh timers are neither lost nor cancelled *)

Lemma refresh_delete (m : gmap positive Timer) (t : positive) :
  (forall x, m !! t = Some x -> is_refresh x = false) ->
  filter (fun kv => is_refresh (snd kv) = true) (delete t m)
  = filter (fun kv => is_refresh (snd kv) = true) m.
Proof.
  intros H. apply map_filter_delete_not. intros y Hy. simpl.
  rewrite (H y Hy). discriminate.
Qed.

Lemma refresh_insert (m : gmap positive Timer) (t : positive) (x : Timer) :
  is_refresh x = false -> m !! t = None ->
  filter (fun kv => is_refresh (snd kv) = true) (<[t := x]> m)
  = filter (fun kv => is_refresh (snd kv) = true) m.
Proof.
  intros Hx Hm. apply map_filter_insert_not'.
  - simpl. rewrite Hx. discriminate.
  - intros y Hy. congruence.
Qed.

Lemma keeps_refl w : keeps_refreshes w w.
Proof. by split. Qed.

Lemma keeps_trans w1 w2 w3 :
  keeps_refreshes w3 w2 -> keeps_refreshes w2 w1 -> keeps_refreshes w3 w1.
Proof. intros [A B] [C D]. split; congruence. Qed.

Lemma keeps_frame w w' :
  timers w' = timers w -> balanceRefreshes w' = balanceRefreshes w ->
  keeps_refreshes w' w.
Proof. intros E1 E2. split; [by rewrite E1|exact E2]. Qed.

Lemma is_reconnect_not_refresh x : is_reconnect x = true -> is_refresh x = false.
Proof. by destruct x as [[]|]. Qed.

Lemma keeps_stopKeepalive w : Named w -> keeps_refreshes (stopKeepalive w) w.
Proof.
  intros HN. unfold stopKeepalive.
  destruct (_keepaliveTimer w) as [t|] eqn:Hk; [|apply keeps_refl].
  split; [|reflexivity]. simpl. apply refresh_delete.
  intros x Hx. by destruct (named_keepalive w HN t x Hk Hx).
Qed.

Lemma keeps_closeUserStreamWS w : Named w -> keeps_refreshes (closeUserStreamWS w) w.
Proof.
  intros HN. unfold closeUserStreamWS.
  destruct (_userStreamReconnectTimer w) as [t|] eqn:Hr; simpl.
  - assert (keeps_refreshes (with_reconnectTimer None (clearTimer t w)) w) as Hk.
    { split; [|reflexivity]. simpl. apply refresh_delete.
      intros x Hx. apply is_reconnect_not_refresh. exact (named_reconnect w HN t x Hr Hx). }
    destruct (_userStreamWS w); [|exact Hk].
    eapply keeps_trans; [|exact Hk]. by apply keeps_frame.
  - destruct (_userStreamWS w); [|apply keeps_refl]. by apply keeps_frame.
Qed.

Lemma keeps_connectUserStreamWS env w :
  Named w -> keeps_refreshes (connectUserStreamWS env w) w.
Proof.
  intros HN. eapply keeps_trans; [|apply keeps_closeUserStreamWS, HN].
  by apply keeps_frame.
Qed.

Lemma keeps_startKeepalive env w :
  Inv w -> Named w -> keeps_refreshes (startKeepalive env w) w.
Proof.
  intros HI HN. eapply keeps_trans; [|apply keeps_stopKeepalive, HN].
  destruct (Inv_stopKeepalive w HI) as (HI' & _).
  unfold startKeepalive. set (w1 := stopKeepalive w) in *. clearbody w1.
  split; [|reflexivity]. simpl. apply refresh_insert; [reflexivity|].
  apply (inv_timers_fresh w1 HI'). lia.
Qed.

Lemma keeps_startBinanceUserStreamLive env w :
  Named w -> keeps_refreshes (startBinanceUserStreamLive env w) w.
Proof.
  intros HN. unfold startBinanceUserStreamLive, ensureBinanceUserStreamStarted_call.
  case_match; [by apply keeps_frame|].
  eapply keeps_trans; [apply keeps_connectUserStreamWS|by apply keeps_frame].
  by apply Named_setConnDot.
Qed.

Lemma keeps_startBinanceUserStreamLive_resume env r w :
  Inv w -> Named w -> keeps_refreshes (startBinanceUserStreamLive_resume env r w) w.
Proof.
  intros HI HN.
  destruct (resume_cases env r w) as [line [[_ ->]|[_ ->]]].
  - set (w1 := with_started true (appendWsLog line w)).
    assert (HI1 : Inv w1) by (by apply Inv_with_started_true, Inv_appendWsLog).
    assert (HN1 : Named w1)
      by (by apply (Named_frame (appendWsLog line w)), Named_appendWsLog).
    eapply keeps_trans; [apply keeps_connectUserStreamWS, Named_startKeepalive, HN1|].
    eapply keeps_trans; [by apply keeps_startKeepalive|].
    by apply keeps_frame.
  - set (w1 := setConnDot "fail" (appendWsLog line w)).
    assert (HN1 : Named w1) by (by apply Named_setConnDot, Named_appendWsLog).
    eapply keeps_trans; [apply keeps_closeUserStreamWS, Named_stopKeepalive, HN1|].
    eapply keeps_trans; [by apply keeps_stopKeepalive|].
    by apply keeps_frame.
Qed.

Lemma keeps_stopBinanceUserStream w :
  Named w -> keeps_refreshes (stopBinanceUserStream w) w.
Proof.
  intros HN. unfold stopBinanceUserStream.
  eapply keeps_trans; [|apply keeps_stopKeepalive, HN].
  eapply keeps_trans; [|apply keeps_closeUserStreamWS, Named_stopKeepalive, HN].
  by apply keeps_frame.
Qed.

Lemma keeps_ledger w' w : keeps_refreshes w' w -> ledger w' = ledger w.
Proof. intros [A B]. unfold ledger, count_timers. by rewrite A, B. Qed.

Lemma step_ledger e w w' :
  Inv w -> Named w -> step e w = Some w' ->
  ledger w' = (if schedules_refresh e then 1 else 0) + ledger w.
Proof.
  intros HI HN H. destruct e; simpl in H.
  - simplify_eq. by apply keeps_ledger, keeps_startBinanceUserStreamLive.
  - simplify_eq. by apply keeps_ledger, keeps_stopBinanceUserStream.
  - repeat case_match; simplify_eq; simpl.
    + apply keeps_ledger.
      eapply keeps_trans; [apply keeps_startBinanceUserStreamLive_resume|].
      * by apply Inv_with_fetches_delete.
      * by apply (Named_frame w).
      * by apply keeps_frame.
    + apply keeps_ledger. unfold keepalive_resume.
      repeat case_match; by apply keeps_frame.
  - repeat case_match; simplify_eq. apply keeps_ledger. by apply keeps_frame.
  - destruct (sockets w !! s) as [s0|] eqn:Hs0; [|discriminate].
    destruct (readyState s0) eqn:Hr0; simplify_eq.
    destruct ev as [raw|msg].
    + reflexivity.
    + change (ledger (deliver (sockEnv s0) w msg)
              = (if qualifies msg then 1 else 0) + ledger w).
      unfold ledger. rewrite deliver_count by exact HI.
      assert (balanceRefreshes (deliver (sockEnv s0) w msg) = balanceRefreshes w) as ->.
      { unfold deliver.
        destruct (onmessage (sockEnv s0) (Json msg) w) as [w1|err] eqn:Hm;
          simpl; [|reflexivity].
        apply onmessage_effect in Hm. by destruct Hm. }
      lia.
  - repeat case_match; simplify_eq. apply keeps_ledger. by apply keeps_frame.
  - assert (forall k, sockets w !! s = Some k ->
              keeps_refreshes (onclose (sockEnv k) ev (set_readyState s CLOSED w)) w) as Hc.
    { intros k _. split; [|reflexivity]. simpl. apply refresh_insert; [reflexivity|].
      apply (inv_timers_fresh w HI). lia. }
    repeat case_match; simplify_eq; by apply keeps_ledger, Hc.
  - destruct (timers w !! t) as [[[env|] d|]|] eqn:Ht; simplify_eq; simpl.
    + apply keeps_ledger.
      eapply keeps_trans;
        [apply keeps_startBinanceUserStreamLive, Named_clearTimer, HN|].
      split; [|reflexivity]. simpl. apply refresh_delete.
      intros x Hx. by simplify_eq.
    + unfold ledger, count_timers. simpl.
      rewrite map_filter_delete.
      assert (filter (fun kv => is_refresh (snd kv) = true) (timers w) !! t
              = Some (Timeout CbLoadBalances d)) as Hf
        by (by apply map_lookup_filter_Some).
      assert (size (filter (fun kv => is_refresh (snd kv) = true) (timers w))
              = S (size (delete t (filter (fun kv => is_refresh (snd kv) = true)
                                     (timers w))))) as Hsz.
      { rewrite <- (insert_id _ _ _ Hf) at 1. rewrite <- insert_delete_eq.
        apply map_size_insert_None, lookup_delete_eq. }
      lia.
  - repeat case_match; simplify_eq. apply keeps_ledger. by apply keeps_frame.
Qed.

Lemma run_ledger es : forall w w',
  reachable w -> run es w = Some w' ->
  ledger w' = length (List.filter schedules_refresh es) + ledger w.
Proof.
  induction es as [|e es IH]; simpl; intros w w' Hr H.
  - by simplify_eq.
  - destruct (step e w) as [w1|] eqn:Hs; [|discriminate].
    rewrite (IH w1 w' (reach_step e w w1 Hr Hs) H).
    rewrite (step_ledger e w w1 (reachable_Inv w Hr) (reachable_Named w Hr) Hs).
    destruct (schedules_refresh e); simpl; lia.
Qed.

(** X4: along any run of the page, the refreshes done plus the refresh
    timers pending grow by one with each qualifying message and change with
    nothing else: a refresh timer is never cancelled, not by a stop and
    not by a connect, and each one calls [loadBalances] once when it
    fires. *)
Theorem refreshes_are_conserved
    (w w' : World) (es : list Event)
    (Hreach : reachable w)
    (Hrun : run es w = Some w') :
  balanceRefreshes w' + count_timers is_refresh w'
  = length (List.filter schedules_refresh es)
    + (balanceRefreshes w + count_timers is_refresh w)
  /\ count_timers is_refresh (stopBinanceUserStream w') = count_timers is_refresh w'
  /\ (forall env, count_timers is_refresh (connectUserStreamWS env w')
                  = count_timers is_refresh w')
  /\ (forall t d w'', timers w' !! t = Some (Timeout CbLoadBalances d) ->
        step (TimeoutFire t) w' = Some w'' ->
        balanceRefreshes w'' = S (balanceRefreshes w')
        /\ timers w'' !! t = None).
Proof.
  pose proof (run_reachable es w w' Hreach Hrun) as Hr'.
  pose proof (reachable_Named w' Hr') as HN.
  split_and!.
  - exact (run_ledger es w w' Hreach Hrun).
  - unfold count_timers. by rewrite (proj1 (keeps_stopBinanceUserStream w' HN)).
  - intros env. unfold count_timers.
    by rewrite (proj1 (keeps_connectUserStreamWS env w' HN)).
  - intros t d w'' Ht Hs. simpl in Hs. rewrite Ht in Hs. simplify_eq. simpl.
    split; [reflexivity|apply lookup_delete_eq].
Qed.

Lemma refreshes_are_conserved_witness :
  exists w',
    run refresh_then_stop (initial false) = Some w'
    /\ balanceRefreshes w' = 1
    /\ count_timers is_refresh w' = 1.
Proof.
  destruct (run refresh_then_stop (initial false)) as [w'|] eqn:Hrun;
    [|vm_compute in Hrun; discriminate].
  destruct (refreshes_are_conserved (initial false) w' refresh_then_stop
              (reach_initial false) Hrun) as (Hl & _).
  exists w'. split; [reflexivity|].
  assert (Hc : count_timers is_refresh w' = 1)
    by (vm_compute in Hrun; injection Hrun as <-; reflexivity).
  assert (Hn : length (List.filter schedules_refresh refresh_then_stop)
               + (balanceRefreshes (initial false)
                  + count_timers is_refresh (initial false)) = 2)
    by (vm_compute; reflexivity).
  split; [|exact Hc]. rewrite Hc, Hn in Hl. lia.
Defined.

(** ** Reconnect timers *)

(** X5: in a world the page can reach, a pending reconnect timer waits
    between 1500 and 20000 ms and carries the environment of a socket that
    has closed; when it fires in a started session, the socket it makes is
    for that environment, and in a session that is not started it sends a
    start request for it. *)
Theorem reconnect_timer_provenance
    (w : World) (t : positive) (env : string) (d : float)
    (Hreach : reachable w)
    (Htimer : timers w !! t = Some (Timeout (CbReconnect env) d)) :
  (floor_ms <=? d)%float = true
  /\ (d <=? ceiling_ms)%float = true
  /\ (exists s k, sockets w !! s = Some k /\ sockEnv k = env /\ readyState k = CLOSED)
  /\ exists w',
       step (TimeoutFire t) w = Some w'
       /\ timers w' !! t = None
       /\ (_streamStartedOnce w = true ->
             _userStreamWS w' = Some (nextId w)
             /\ sockets w' !! nextId w = Some (mkSocket CONNECTING env (secure w)))
       /\ (_streamStartedOnce w = false ->
             fetches w' !! nextId w = Some (StartFetch env)
             /\ sockets w' = sockets w).
Proof.
  pose proof (reachable_Inv w Hreach) as HI.
  pose proof (reachable_Named w Hreach) as HN.
  destruct (named_reconnect_timer w HN t env d Htimer) as ([n ->] & Hsock).
  split_and!; try apply backoff_n_bounds; [exact Hsock|].
  simpl. rewrite Htimer. eexists. split; [reflexivity|].
  unfold startBinanceUserStreamLive, ensureBinanceUserStreamStarted_call. simpl.
  split_and!.
  - destruct (_streamStartedOnce w); simpl; [|apply lookup_delete_eq].
    unfold connectUserStreamWS, closeUserStreamWS. simpl.
    repeat (match goal with
            | |- context [match ?x with _ => _ end] => destruct x eqn:?
            end; simpl);
      try apply lookup_delete_eq; apply lookup_delete_None; right; apply lookup_delete_eq.
  - intros ->. simpl. unfold connectUserStreamWS, closeUserStreamWS. simpl.
    repeat (match goal with
            | |- context [match ?x with _ => _ end] => destruct x eqn:?
            end; simpl); (split; [reflexivity|apply lookup_insert_eq]).
  - intros ->. simpl. split; [apply lookup_insert_eq|reflexivity].
Qed.

Lemma reconnect_timer_provenance_witness :
  exists w w',
    run session_dropped (initial false) = Some w
    /\ timers w !! 4%positive = Some (Timeout (CbReconnect "testnet") 1500%float)
    /\ step (TimeoutFire 4) w = Some w'
    /\ sockets w' !! 5%positive = Some (mkSocket CONNECTING "testnet" false).
Proof.
  destruct (run session_dropped (initial false)) as [w|] eqn:Hrun;
    [|vm_compute in Hrun; discriminate].
  assert (Ht : timers w !! 4%positive = Some (Timeout (CbReconnect "testnet") 1500%float)).
  { vm_compute in Hrun. injection Hrun as <-. reflexivity. }
  destruct (reconnect_timer_provenance w 4 _ _
              (run_reachable _ _ _ (reach_initial false) Hrun) Ht)
    as (_ & _ & _ & w' & Hs & _ & Hst & _).
  exists w, w'. split; [reflexivity|]. split; [exact Ht|]. split; [exact Hs|].
  assert (Hw : _streamStartedOnce w = true /\ nextId w = 5%positive /\ secure w = false).
  { vm_compute in Hrun. injection Hrun as <-. by split_and!. }
  destruct Hw as (Hstarted & Hid & Hsec).
  destruct (Hst Hstarted) as [_ Hsock]. by rewrite Hid, Hsec in Hsock.
Defined.

(** ** The started flag *)

Lemma flag_same (P Q : Prop) (b b' : bool) :
  b' = b -> (b = false -> b' = true -> P) /\ (b = true -> b' = false -> Q).
Proof. intros ->. split; congruence. Qed.

(** X6: one task turns [_streamStartedOnce] on, the resumption of a start
    request that was acknowledged, and one turns it off, a stop. *)
Theorem started_flag_transitions
    (e : Event) (w w' : World)
    (Hstep : step e w = Some w') :
  (_streamStartedOnce w = false -> _streamStartedOnce w' = true ->
     exists f r env,
       e = FetchDone f r /\ fetches w !! f = Some (StartFetch env) /\ acks r = true)
  /\ (_streamStartedOnce w = true -> _streamStartedOnce w' = false -> e = CallStop).
Proof.
  destruct e; simpl in Hstep.
  - apply flag_same. simplify_eq. frame.
  - split; [|reflexivity]. simplify_eq. simpl. discriminate.
  - destruct (fetches w !! f) as [[env|env]|] eqn:Hf; simplify_eq.
    + destruct (resume_cases env r (with_fetches (delete f (fetches w)) w))
        as [line [[Hy ->]|[_ ->]]].
      * rewrite ensure_resume_fst in Hy. split; [eauto 6|].
        intros _. assert (_streamStartedOnce
                   (connectUserStreamWS env
                      (startKeepalive env
                         (with_started true
                            (appendWsLog line (with_fetches (delete f (fetches w)) w)))))
                 = true) as -> by frame. discriminate.
      * apply flag_same. frame.
    + apply flag_same. frame.
  - apply flag_same. repeat case_match; simplify_eq. reflexivity.
  - apply flag_same. repeat case_match; simplify_eq.
    destruct (onmessage _ ev w) as [w1|err] eqn:Hm; simpl; [|reflexivity].
    apply onmessage_effect in Hm. by destruct Hm.
  - apply flag_same. repeat case_match; simplify_eq. reflexivity.
  - apply flag_same. repeat case_match; simplify_eq; reflexivity.
  - apply flag_same. repeat case_match; simplify_eq; frame.
  - apply flag_same. repeat case_match; simplify_eq. reflexivity.
Qed.

Lemma started_flag_transitions_witness :
  exists w w',
    run [CallStartLive "testnet"] (initial false) = Some w
    /\ step (FetchDone 1 (Body ok_body)) w = Some w'
    /\ _streamStartedOnce w = false
    /\ _streamStartedOnce w' = true
    /\ exists env, fetches w !! 1%positive = Some (StartFetch env).
Proof.
  destruct (run [CallStartLive "testnet"] (initial false)) as [w|] eqn:Hrun;
    [|vm_compute in Hrun; discriminate].
  destruct (step (FetchDone 1 (Body ok_body)) w) as [w'|] eqn:Hs;
    [|vm_compute in Hrun; injection Hrun as <-; vm_compute in Hs; discriminate].
  assert (H0 : _streamStartedOnce w = false)
    by (vm_compute in Hrun; injection Hrun as <-; reflexivity).
  assert (H1 : _streamStartedOnce w' = true).
  { vm_compute in Hrun. injection Hrun as <-. vm_compute in Hs. injection Hs as <-.
    reflexivity. }
  destruct (started_flag_transitions _ w w' Hs) as [Hon _].
  destruct (Hon H0 H1) as (f & r & env & He & Hf & _).
  injection He as <- <-.
  exists w, w'. split_and!; try done. by exists env.
Defined.

(** ** What a message and a keepalive tick leave alone *)

(** X7: whatever arrives on the socket, the message handler leaves the
    sockets, the requests, the three handles, the started flag and the
    delay as they were; it adds at most one log line and at most one
    timer, the 400 ms refresh. *)
Theorem message_leaves_the_manager_alone
    (env : string) (ev : MessageData) (w : World) :
  let w' := uncaught (onmessage env ev w) w in
  sockets w' = sockets w
  /\ fetches w' = fetches w
  /\ _userStreamWS w' = _userStreamWS w
  /\ _userStreamReconnectTimer w' = _userStreamReconnectTimer w
  /\ _keepaliveTimer w' = _keepaliveTimer w
  /\ _streamStartedOnce w' = _streamStartedOnce w
  /\ _reconnectDelayMs w' = _reconnectDelayMs w
  /\ starterCalls w' = starterCalls w
  /\ (wsLog w' = wsLog w \/ exists line, wsLog w' = line :: wsLog w)
  /\ (timers w' = timers w
      \/ timers w' = <[nextId w := Timeout CbLoadBalances 400%float]> (timers w)).
Proof.
  simpl. destruct (onmessage env ev w) as [w'|err] eqn:Hm; simpl.
  - apply onmessage_effect in Hm. destruct Hm; simpl; split_and!; eauto.
  - split_and!; auto.
Qed.

Lemma keepalive_resume_log env r w :
  exists line, keepalive_resume env r w = appendWsLog line w.
Proof. unfold keepalive_resume. repeat case_match; eauto. Qed.

(** X8: a keepalive tick sends one request for the environment the
    interval was armed with, and whatever the answer, nothing but the log
    changes: the interval stays active, and the sockets, the handles, the
    indicator, the started flag and the delay are as before. *)
Theorem keepalive_tick_only_logs
    (w : World) (t : positive) (env : string) (p : float) (r : FetchOutcome)
    (Hreach : reachable w)
    (Htimer : timers w !! t = Some (Interval env p)) :
  exists w1 w2 line,
    step (IntervalTick t) w = Some w1
    /\ fetches w1 = <[nextId w := KeepaliveFetch env]> (fetches w)
    /\ step (FetchDone (nextId w) r) w1 = Some w2
    /\ wsLog w2 = line :: wsLog w
    /\ timers w2 = timers w
    /\ fetches w2 = fetches w
    /\ sockets w2 = sockets w
    /\ connDot w2 = connDot w
    /\ _userStreamWS w2 = _userStreamWS w
    /\ _userStreamReconnectTimer w2 = _userStreamReconnectTimer w
    /\ _keepaliveTimer w2 = _keepaliveTimer w
    /\ _streamStartedOnce w2 = _streamStartedOnce w
    /\ _reconnectDelayMs w2 = _reconnectDelayMs w.
Proof.
  pose proof (reachable_Inv w Hreach) as HI.
  assert (Hfresh : fetches w !! nextId w = None)
    by (apply (inv_fetches_fresh w HI); lia).
  set (w1 := keepalive_tick env w).
  set (w1' := with_fetches (delete (nextId w) (fetches w1)) w1).
  destruct (keepalive_resume_log env r w1') as [line Hline].
  exists w1, (keepalive_resume env r w1'), line.
  assert (Hf1 : fetches w1 !! nextId w = Some (KeepaliveFetch env))
    by apply lookup_insert_eq.
  assert (Hs1 : step (IntervalTick t) w = Some w1)
    by (unfold step; by rewrite Htimer).
  assert (Hs2 : step (FetchDone (nextId w) r) w1 = Some (keepalive_resume env r w1'))
    by (unfold step; by rewrite Hf1).
  split_and!; try assumption; rewrite ?Hline; try reflexivity.
  simpl. rewrite delete_insert_eq. by apply delete_id.
Qed.

Lemma keepalive_tick_only_logs_witness :
  exists w w1 w2,
    run session_open (initial false) = Some w
    /\ step (IntervalTick 2) w = Some w1
    /\ step (FetchDone 4 Rejected) w1 = Some w2
    /\ timers w2 !! 2%positive = Some (Interval "testnet" 1500000%float)
    /\ wsLog w2 = [Txt "Keepalive failed: "; Txt "fetch_failed"] :: wsLog w.
Proof.
  destruct (run session_open (initial false)) as [w|] eqn:Hrun;
    [|vm_compute in Hrun; discriminate].
  assert (Ht : timers w !! 2%positive = Some (Interval "testnet" 1500000%float)).
  { vm_compute in Hrun. injection Hrun as <-. reflexivity. }
  assert (Hid : nextId w = 4%positive).
  { vm_compute in Hrun. injection Hrun as <-. reflexivity. }
  destruct (keepalive_tick_only_logs w 2 _ _ Rejected
              (run_reachable _ _ _ (reach_initial false) Hrun) Ht)
    as (w1 & w2 & line & H1 & Hf & H2 & Hlog & Htm & _).
  rewrite Hid in H2.
  exists w, w1, w2. split_and!; try done.
  - by rewrite Htm.
  - simpl in H1. rewrite Ht in H1. injection H1 as <-.
    simpl in H2. unfold keepalive_tick, fetch in H2. simpl in H2.
    rewrite Hid, lookup_insert_eq in H2. injection H2 as <-. reflexivity.
Defined.

(** ** What stop and connect release, on a reachable world *)

(** X9: a stop on any world the page can reach leaves the three handles
    null, the session not started and the delay at the floor; the timer,
    the interval and the socket the handles named are released, no socket
    is left connecting or open, no interval is left active, and no socket
    is made. *)
Theorem stop_releases_what_it_names
    (w : World)
    (Hreach : reachable w) :
  let w' := stopBinanceUserStream w in
  _userStreamWS w' = None
  /\ _userStreamReconnectTimer w' = None
  /\ _keepaliveTimer w' = None
  /\ _streamStartedOnce w' = false
  /\ _reconnectDelayMs w' = 1500%float
  /\ (forall t, _userStreamReconnectTimer w = Some t -> timers w' !! t = None)
  /\ (forall t, _keepaliveTimer w = Some t -> timers w' !! t = None)
  /\ (forall s k, sockets w' !! s = Some k -> live (readyState k) = false)
  /\ (forall t env p, timers w' !! t <> Some (Interval env p))
  /\ dom (sockets w') = dom (sockets w)
  /\ fetches w' = fetches w.
Proof.
  destruct (stopBinanceUserStream_handles w) as (H1 & H2 & H3 & H4 & H5 & H6 & H7 & _).
  destruct (stopBinanceUserStream_quiet w Hreach) as [Hl Hi].
  simpl. split_and!; try assumption.
  - unfold stopBinanceUserStream, closeUserStreamWS, stopKeepalive. simpl.
    repeat (match goal with
            | |- context [match ?x with _ => _ end] => destruct x eqn:?
            end; simpl); try reflexivity; apply dom_alter_L.
  - frame.
Qed.

Lemma stop_releases_what_it_names_witness :
  exists w,
    run session_open (initial false) = Some w
    /\ _userStreamWS (stopBinanceUserStream w) = None
    /\ readyState <$> sockets w !! 3%positive = Some OPEN
    /\ readyState <$> sockets (stopBinanceUserStream w) !! 3%positive = Some CLOSING
    /\ timers (stopBinanceUserStream w) = ∅.
Proof.
  destruct (run session_open (initial false)) as [w|] eqn:Hrun;
    [|vm_compute in Hrun; discriminate].
  destruct (stop_releases_what_it_names w
              (run_reachable _ _ _ (reach_initial false) Hrun)) as (Hws & _).
  exists w. split; [reflexivity|]. split; [exact Hws|].
  vm_compute in Hrun. injection Hrun as <-. split_and!; reflexivity.
Defined.

(** X10: a connect on any world the page can reach clears the timer its
    handle names and closes the socket its handle names, then makes one
    connecting socket for [env], which its handle names and which is the
    only socket connecting or open; the indicator is pending, and the
    keepalive interval, the refresh timers and the started flag are as
    before. *)
Theorem connect_makes_the_one_live_socket
    (env : string) (w : World)
    (Hreach : reachable w) :
  let w' := connectUserStreamWS env w in
  _userStreamWS w' = Some (nextId w)
  /\ sockets w' !! nextId w = Some (mkSocket CONNECTING env (secure w))
  /\ (forall s k, sockets w' !! s = Some k -> live (readyState k) = true -> s = nextId w)
  /\ _userStreamReconnectTimer w' = None
  /\ (forall t, _userStreamReconnectTimer w = Some t -> timers w' !! t = None)
  /\ connDot w' = pending
  /\ _keepaliveTimer w' = _keepaliveTimer w
  /\ (forall t e p, timers w !! t = Some (Interval e p) ->
                    timers w' !! t = Some (Interval e p))
  /\ count_timers is_refresh w' = count_timers is_refresh w
  /\ _streamStartedOnce w' = _streamStartedOnce w
  /\ _reconnectDelayMs w' = _reconnectDelayMs w.
Proof.
  destruct (connectUserStreamWS_releases env w Hreach) as (H1 & H2 & H3 & H4 & H5).
  pose proof (reachable_Named w Hreach) as HN.
  simpl. split_and!; try assumption.
  - frame.
  - frame.
  - intros t e p Ht. unfold connectUserStreamWS, closeUserStreamWS. simpl.
    destruct (_userStreamReconnectTimer w) as [t'|] eqn:Hr; simpl;
      destruct (_userStreamWS w); simpl; try exact Ht;
      (rewrite lookup_delete_ne; [exact Ht|]);
      intros <-; by pose proof (named_reconnect w HN _ _ Hr Ht).
  - unfold count_timers. by rewrite (proj1 (keeps_connectUserStreamWS env w HN)).
  - frame.
  - frame.
Qed.

Lemma connect_makes_the_one_live_socket_witness :
  exists w,
    run session_open (initial false) = Some w
    /\ readyState <$> sockets (connectUserStreamWS "production" w) !! 3%positive
       = Some CLOSING
    /\ sockets (connectUserStreamWS "production" w) !! 4%positive
       = Some (mkSocket CONNECTING "production" false).
Proof.
  destruct (run session_open (initial false)) as [w|] eqn:Hrun;
    [|vm_compute in Hrun; discriminate].
  destruct (connect_makes_the_one_live_socket "production" w
              (run_reachable _ _ _ (reach_initial false) Hrun)) as (_ & Hs & _).
  assert (Hw : nextId w = 4%positive /\ secure w = false).
  { vm_compute in Hrun. injection Hrun as <-. by split. }
  destruct Hw as [Hid Hsec]. rewrite Hid, Hsec in Hs.
  exists w. split; [reflexivity|]. split; [|exact Hs].
  vm_compute in Hrun. injection Hrun as <-. reflexivity.
Defined.

(** ** Numbers and texts on the page *)

Lemma Number_returns rt x : (exists n, Number rt x = Normal n) <-> amount_ok x = true.
Proof.
  destruct x as [[| | | |xs|kvs]|]; simpl; try (split; eauto; fail).
  - destruct ((fix all (l : list JValue) : bool :=
                 match l with [] => true | x :: l' => printable x && all l' end) xs);
      split; eauto; try discriminate. intros [n Hn]. discriminate.
  - destruct (negb (has_key "toString" kvs));
      split; eauto; try discriminate. intros [n Hn]. discriminate.
Qed.

Lemma fmtNum_returns rt x : (exists out, fmtNum rt x = Normal out) <-> amount_ok x = true.
Proof.
  rewrite <- (Number_returns rt x). unfold fmtNum.
  destruct (nullish x) eqn:Hn.
  - destruct x as [[]|]; try discriminate; simpl; split; eauto.
  - destruct (Number rt x) as [n|e]; simpl.
    + destruct (negb (is_finite n)); split; eauto.
    + split; intros [? ?]; discriminate.
Qed.

(** ** The percentage cells of the ticker *)

Lemma In_remove_tokens a b c l :
  In c (remove_tokens a b l) <-> In c l /\ c <> a /\ c <> b.
Proof.
  unfold remove_tokens. rewrite filter_In, andb_true_iff, !negb_true_iff.
  rewrite !String.eqb_neq. tauto.
Qed.

Lemma In_add_token a c l : In c (add_token a l) <-> c = a \/ In c l.
Proof.
  unfold add_token. destruct (existsb (String.eqb a) l) eqn:He.
  - apply existsb_exists in He as (x & Hx & Heq). apply String.eqb_eq in Heq. subst x.
    split; [auto|]. intros [->|H]; assumption.
  - rewrite in_app_iff. simpl. split; [intros [H|[H|[]]]|intros [H|H]]; auto.
Qed.

(** X11: [setPct] on an element clears a stale [up] or [down] token and
    then sets at most one of the two, by the sign of [Number(val)]: [up]
    for a positive value, [down] for a negative one, neither for zero, NaN,
    [null] or a missing value; every other class token stays.  For a
    finite value the text starts with [+] exactly when [up] is set; for an
    infinite one the text is the dash and the token is set all the same. *)
Theorem setPct_classes
    (rt : Runtime) (e : Elem) (val : JsVal) (n : float)
    (Hnum : Number rt val = Normal n) :
  exists e',
    setPct rt (Some e) val = Normal (Some e')
    /\ (In "up" (classList e') <-> nullish val = false /\ (0 <? n)%float = true)
    /\ (In "down" (classList e')
        <-> nullish val = false /\ (0 <? n)%float = false /\ (n <? 0)%float = true)
    /\ ~ (In "up" (classList e') /\ In "down" (classList e'))
    /\ (forall c, c <> "up" -> c <> "down" -> (In c (classList e') <-> In c (classList e)))
    /\ (nullish val = false -> is_finite n = true ->
          textContent e'
          = [STxt (if (0 <? n)%float then "+" else EmptyString); SFixed n 2; STxt "%"])
    /\ (nullish val = true \/ is_finite n = false -> textContent e' = [STxt dash]).
Proof.
  unfold setPct, fmtPct. destruct (nullish val) eqn:Hnull; simpl.
  - eexists. split; [reflexivity|]. simpl. split_and!.
    + rewrite In_remove_tokens. split; [tauto|]. intros [? _]. discriminate.
    + rewrite In_remove_tokens. split; [tauto|]. intros [? _]. discriminate.
    + rewrite !In_remove_tokens. tauto.
    + intros c H1 H2. rewrite In_remove_tokens. tauto.
    + discriminate.
    + reflexivity.
  - rewrite Hnum. simpl.
    assert (Htxt : exists txt,
               (if negb (is_finite n) then Normal [STxt dash]
                else Normal [STxt (if (0 <? n)%float then "+" else EmptyString);
                             SFixed n 2; STxt "%"]) = Normal txt
               /\ (is_finite n = true ->
                     txt = [STxt (if (0 <? n)%float then "+" else EmptyString);
                            SFixed n 2; STxt "%"])
               /\ (is_finite n = false -> txt = [STxt dash])).
    { destruct (is_finite n); simpl; eexists; split_and!; try reflexivity; discriminate. }
    destruct Htxt as (txt & -> & Hfin & Hinf). simpl.
    destruct (0 <? n)%float eqn:Hpos; simpl.
    + eexists. split; [reflexivity|]. simpl. split_and!.
      * rewrite In_add_token. tauto.
      * rewrite In_add_token, In_remove_tokens.
        split; [intros [?|(_ & _ & ?)]; congruence|intros (_ & ? & _); discriminate].
      * rewrite !In_add_token, !In_remove_tokens.
        intros [_ [?|(_ & _ & ?)]]; congruence.
      * intros c H1 H2. rewrite In_add_token, In_remove_tokens. tauto.
      * intros _. exact Hfin.
      * intros [?|H]; [discriminate|auto].
    + destruct (n <? 0)%float eqn:Hneg; simpl.
      * eexists. split; [reflexivity|]. simpl. split_and!.
        -- rewrite In_add_token, In_remove_tokens.
           split; [intros [?|(_ & ? & _)]; congruence|intros [_ ?]; discriminate].
        -- rewrite In_add_token. tauto.
        -- rewrite !In_add_token, !In_remove_tokens.
           intros [[?|(_ & ? & _)] _]; congruence.
        -- intros c H1 H2. rewrite In_add_token, In_remove_tokens. tauto.
        -- intros _. exact Hfin.
        -- intros [?|H]; [discriminate|auto].
      * eexists. split; [reflexivity|]. simpl. split_and!.
        -- rewrite In_remove_tokens. split; [tauto|]. intros [_ ?]. discriminate.
        -- rewrite In_remove_tokens. split; [tauto|]. intros (_ & _ & ?). discriminate.
        -- rewrite !In_remove_tokens. tauto.
        -- intros c H1 H2. rewrite In_remove_tokens. tauto.
        -- intros _. exact Hfin.
        -- intros [?|H]; [discriminate|auto].
Qed.

Lemma setPct_classes_witness :
  exists e',
    setPct plain_runtime (Some (mkElem [STxt dash] ["pct"; "up"])) (Some (JNum (-1.25)%float))
    = Normal (Some e')
    /\ classList e' = ["pct"; "down"]
    /\ textContent e' = [STxt EmptyString; SFixed (-1.25)%float 2; STxt "%"].
Proof.
  destruct (setPct_classes plain_runtime (mkElem [STxt dash] ["pct"; "up"])
              (Some (JNum (-1.25)%float)) (-1.25)%float eq_refl)
    as (e' & He & _).
  exists e'. split; [exact He|].
  vm_compute in He. injection He as <-. split; reflexivity.
Defined.

(** ** The balance table *)

Lemma render_row_returns rt r :
  (exists row, render_row rt r = Normal row) <-> row_ok r = true.
Proof.
  unfold render_row, row_ok.
  destruct r as [| | | | |kvs]; simpl;
    try (split; [intros [? ?]; discriminate|discriminate]).
  all: try (split; eauto; fail).
  (* an object *)
  rewrite !andb_true_iff, <- !(fmtNum_returns rt).
  destruct (printable (or_empty (assoc "asset" kvs))); simpl.
  - destruct (fmtNum rt (assoc "free" kvs)) as [f|e]; simpl.
    + destruct (fmtNum rt (assoc "locked" kvs)) as [l|e]; simpl.
      * split; eauto.
      * split; [intros [? ?]; discriminate|intros (_ & [? ?]); discriminate].
    + split; [intros [? ?]; discriminate|intros ((_ & [? ?]) & _); discriminate].
  - split; [intros [? ?]; discriminate|intros ((? & _) & _); discriminate].
Qed.

Lemma render_rows_returns rt xs :
  (exists rows, render_rows rt xs = Normal rows) <-> forallb row_ok xs = true.
Proof.
  induction xs as [|r xs IH]; simpl.
  - split; eauto.
  - rewrite andb_true_iff, <- IH, <- (render_row_returns rt r).
    destruct (render_row rt r) as [row|e]; simpl.
    + destruct (render_rows rt xs) as [rows|e]; simpl.
      * split; eauto.
      * split; [intros [? ?]; discriminate|intros (_ & [? ?]); discriminate].
    + split; [intros [? ?]; discriminate|intros ([? ?] & _); discriminate].
Qed.

(** The [try] of [loadBalances] either throws or ends on an ok table. *)
Lemma loadBalances_try_cases rt data p :
  (balances_ok data = true
   /\ exists t, loadBalances_try rt data p = Normal (mkPage (balErr p) (Some t) green)
                /\ (t = NoBalances \/ exists rows, t = Rows rows))
  \/ (balances_ok data = false /\ exists e, loadBalances_try rt data p = Throw e).
Proof.
  unfold loadBalances_try, balances_ok.
  destruct data as [| | | | |kvs]; simpl; try (right; eauto; fail);
    try (left; split; [reflexivity|]; eauto; fail).
  destruct (truthy (assoc "error" kvs)); simpl; [right; eauto|].
  set (rows := or_else (assoc "balances" kvs) (JArr [])). clearbody rows.
  destruct (has_length rows) eqn:Hl; simpl; [|left; split; [reflexivity|]; eauto].
  destruct rows as [| | | |xs|kvs']; simpl; try (right; eauto; fail).
  pose proof (render_rows_returns rt xs) as Hr.
  destruct (render_rows rt xs) as [rows|e]; simpl.
  - left. split; [apply Hr; eauto|]. eauto.
  - right. split; [|eauto].
    destruct (forallb row_ok xs); [|reflexivity].
    destruct (proj2 Hr eq_refl) as [? ?]. discriminate.
Qed.

(** X12: a call of [loadBalances] on a page without the table hides the
    banner and does nothing else.  On a page with the table it never
    leaves the indicator pending: it ends at ok with the table showing
    balances or "No balances", or at fail with the table showing
    "No data"; the banner, where there is one, is visible after the call
    exactly when the call has failed, whatever it showed before. *)
Theorem loadBalances_settles (rt : Runtime) (r : FetchOutcome) (p : Page) :
  let p' := loadBalances rt r p in
  match balBody p with
  | None => p' = mkPage (setVisible (balErr p) false) None (pageDot p)
  | Some _ =>
      (pageDot p' = green \/ pageDot p' = red)
      /\ (pageDot p' = red <-> balBody p' = Some NoData)
      /\ (pageDot p' = green
          <-> balBody p' = Some NoBalances \/ exists rows, balBody p' = Some (Rows rows))
      /\ (forall b, balErr p' = Some b -> (visible b = true <-> pageDot p' = red))
      /\ (is_Some (balErr p') <-> is_Some (balErr p))
  end.
Proof.
  unfold loadBalances, loadBalances_call. destruct p as [err body dot]. simpl.
  destruct body as [t|]; simpl; [|reflexivity].
  assert (Hcatch :
    let p' := loadBalances_catch (mkPage (setVisible err false) (Some Checking) pending) in
    (pageDot p' = green \/ pageDot p' = red)
    /\ (pageDot p' = red <-> balBody p' = Some NoData)
    /\ (pageDot p' = green
        <-> balBody p' = Some NoBalances \/ exists rows, balBody p' = Some (Rows rows))
    /\ (forall b, balErr p' = Some b -> (visible b = true <-> pageDot p' = red))
    /\ (is_Some (balErr p') <-> is_Some err)).
  { simpl. split_and!.
    - by right.
    - by split.
    - split; [discriminate|]. intros [?|[? ?]]; discriminate.
    - destruct err as [b0|]; simpl; intros b' Hb; simplify_eq. simpl. tauto.
    - destruct err; simpl; split; intros [? ?]; try discriminate; by eexists. }
  destruct r as [|data]; simpl; [exact Hcatch|].
  destruct (loadBalances_try_cases rt data
              (mkPage (setVisible err false) (Some Checking) pending))
    as [(_ & t' & -> & Ht')|(_ & e & ->)]; [|exact Hcatch].
  simpl. split_and!.
  - by left.
  - split; [discriminate|]. intros [= ->]. destruct Ht' as [?|[? ?]]; discriminate.
  - split; [intros _|auto]. destruct Ht' as [->|[rows ->]]; eauto.
  - destruct err as [b0|]; simpl; intros b' Hb; simplify_eq. simpl.
    split; discriminate.
  - destruct err; simpl; split; intros [? ?]; try discriminate; by eexists.
Qed.

(** X13: on a page with the table, [loadBalances] ends at ok exactly when
    the request settles with a response that is not [null], whose [error]
    is falsy, and whose [balances] are falsy, have a falsy [length], or
    are an array of rows none of which is [null] and whose [asset], [free]
    and [locked] all have a text; every other outcome, a rejected request
    among them, ends at fail.  The runtime's conversions have no say in
    it. *)
Theorem loadBalances_accepts
    (rt : Runtime) (r : FetchOutcome) (p : Page) (t : Table)
    (Hbody : balBody p = Some t) :
  (pageDot (loadBalances rt r p) = green
   <-> exists data, r = Body data /\ balances_ok data = true)
  /\ (pageDot (loadBalances rt r p) = red
      <-> r = Rejected \/ exists data, r = Body data /\ balances_ok data = false).
Proof.
  unfold loadBalances, loadBalances_call. destruct p as [err body dot]. simpl in *.
  subst body. simpl.
  destruct r as [|data]; simpl.
  - split; split; auto; try discriminate. intros (? & ? & _). discriminate.
  - destruct (loadBalances_try_cases rt data
                (mkPage (setVisible err false) (Some Checking) pending))
      as [(Hok & t' & -> & _)|(Hno & e & ->)]; simpl.
    + split; split; eauto; try discriminate.
      intros [?|(d & [= <-] & Hd)]; congruence.
    + split; split; eauto; try discriminate.
      intros (d & [= <-] & Hd). congruence.
Qed.

Lemma loadBalances_accepts_witness :
  pageDot (loadBalances plain_runtime (Body two_balances) empty_page) = green
  /\ balErr (loadBalances plain_runtime (Body two_balances) empty_page)
     = Some (mkBanner false "Connection failed.")
  /\ pageDot (loadBalances plain_runtime (Body unauthorized) empty_page) = red.
Proof.
  destruct (loadBalances_accepts plain_runtime (Body two_balances) empty_page NoData
              eq_refl) as [[_ Hg] _].
  destruct (loadBalances_accepts plain_runtime (Body unauthorized) empty_page NoData
              eq_refl) as [_ [_ Hr]].
  split_and!.
  - apply Hg. by exists two_balances.
  - reflexivity.
  - apply Hr. right. by exists unauthorized.
Defined.

(** ** Amounts that are not finite *)

Lemma fmtNum_finite rt x out : fmtNum rt x = Normal out -> shows_nonfinite out = false.
Proof.
  unfold fmtNum. destruct (nullish x); [by intros [= <-]|].
  destruct (Number rt x) as [n|e]; simpl; [|discriminate].
  destruct (is_finite n) eqn:Hf; simpl; intros [= <-]; simpl; [by rewrite Hf|reflexivity].
Qed.

Lemma fmtPct_finite rt x out : fmtPct rt x = Normal out -> shows_nonfinite out = false.
Proof.
  unfold fmtPct. destruct (nullish x); [by intros [= <-]|].
  destruct (Number rt x) as [n|e]; simpl; [|discriminate].
  destruct (is_finite n) eqn:Hf; simpl; intros [= <-]; simpl; [by rewrite Hf|reflexivity].
Qed.

Lemma rows_array b xs :
  JArr xs = or_else b (JArr []) -> has_length (JArr xs) = true -> b = Some (JArr xs).
Proof.
  unfold or_else. destruct b as [v|]; [|intros [= ->]; discriminate].
  destruct (truthy (Some v)); [congruence|intros [= ->]; discriminate].
Qed.

Lemma render_row_finite rt r row :
  render_row rt r = Normal row ->
  shows_nonfinite (app (rowFree row) (rowLocked row)) = false.
Proof.
  unfold render_row.
  destruct (getProp r "asset") as [a|e]; simpl; [|discriminate].
  destruct (printable (or_empty a)); simpl; [|discriminate].
  destruct (getProp r "free") as [f|e]; simpl; [|discriminate].
  destruct (fmtNum rt f) as [free|e] eqn:Hf; simpl; [|discriminate].
  destruct (getProp r "locked") as [l|e]; simpl; [|discriminate].
  destruct (fmtNum rt l) as [locked|e] eqn:Hl; simpl; [|discriminate].
  intros [= <-]. simpl. unfold shows_nonfinite. rewrite existsb_app.
  apply fmtNum_finite in Hf, Hl. unfold shows_nonfinite in Hf, Hl.
  by rewrite Hf, Hl.
Qed.

Lemma render_rows_finite rt xs : forall rows,
  render_rows rt xs = Normal rows ->
  length rows = length xs
  /\ forall row, In row rows ->
       shows_nonfinite (app (rowFree row) (rowLocked row)) = false.
Proof.
  induction xs as [|r xs IH]; simpl; intros rows.
  - intros [= <-]. split; [reflexivity|]. intros row [].
  - destruct (render_row rt r) as [row|e] eqn:Hr; simpl; [|discriminate].
    destruct (render_rows rt xs) as [more|e]; simpl; [|discriminate].
    intros [= <-]. destruct (IH more eq_refl) as [Hlen Hall].
    split; [simpl; by rewrite Hlen|].
    intros row' [<-|Hin]; [by apply (render_row_finite rt r)|by apply Hall].
Qed.

(** X14: the balance table never shows an amount that is not finite.  A
    table of rows that [loadBalances] leaves was rendered by that call from
    a response whose [balances] is a non-empty array, has one row for each
    of its entries, and in every row the free and the locked amount are
    free of [NaN] and of the infinities, whatever the response held and
    whatever the runtime's conversions give; so are the texts of [fmtNum]
    and [fmtPct] on every value.  [fmtPrice] has no such guard: its text
    shows a number that is not finite exactly when the value is neither
    [null] nor missing and converts to one. *)
Theorem amounts_shown_are_finite
    (rt : Runtime) (r : FetchOutcome) (p : Page) (rows : list Row)
    (Hrows : balBody (loadBalances rt r p) = Some (Rows rows)) :
  (exists data xs,
      r = Body data
      /\ getPropOpt data "balances" = Some (JArr xs)
      /\ xs <> []
      /\ length rows = length xs)
  /\ (forall row, In row rows ->
        shows_nonfinite (app (rowFree row) (rowLocked row)) = false)
  /\ (forall x out, fmtNum rt x = Normal out -> shows_nonfinite out = false)
  /\ (forall x out, fmtPct rt x = Normal out -> shows_nonfinite out = false)
  /\ (forall x out, fmtPrice rt x = Normal out ->
        (shows_nonfinite out = true
         <-> nullish x = false
             /\ exists n, Number rt x = Normal n /\ is_finite n = false)).
Proof.
  assert (Hmain : exists data xs,
             r = Body data
             /\ getPropOpt data "balances" = Some (JArr xs)
             /\ xs <> []
             /\ render_rows rt xs = Normal rows).
  { unfold loadBalances, loadBalances_call in Hrows.
    destruct (balBody p) as [t|]; simpl in Hrows; [|discriminate].
    destruct r as [|data]; simpl in Hrows; [discriminate|].
    unfold loadBalances_try in Hrows.
    destruct data as [| | | | |kvs]; simpl in Hrows; try discriminate.
    destruct (truthy (assoc "error" kvs)); simpl in Hrows; [discriminate|].
    remember (or_else (assoc "balances" kvs) (JArr [])) as rs eqn:Hrs.
    destruct (has_length rs) eqn:Hl; simpl in Hrows; [|discriminate].
    destruct rs as [| | | |xs|kvs']; simpl in Hrows; try discriminate.
    destruct (render_rows rt xs) as [rendered|e] eqn:Hr; simpl in Hrows; [|discriminate].
    injection Hrows as <-.
    exists (JObj kvs), xs. split_and!; try done.
    - simpl. by apply rows_array.
    - intros ->. discriminate. }
  destruct Hmain as (data & xs & -> & Hb & Hne & Hr).
  destruct (render_rows_finite rt xs rows Hr) as [Hlen Hall].
  split_and!.
  - eauto 10.
  - exact Hall.
  - apply fmtNum_finite.
  - apply fmtPct_finite.
  - intros x out. unfold fmtPrice. destruct (nullish x).
    + intros [= <-]. simpl. split; [discriminate|]. intros [? _]. discriminate.
    + destruct (Number rt x) as [n|e]; simpl; [|discriminate].
      intros [= <-]. simpl. rewrite orb_false_r, negb_true_iff. split.
      * intros Hf. split; [reflexivity|]. eauto.
      * intros (_ & n' & [= <-] & Hf). exact Hf.
Qed.

Lemma amounts_shown_are_finite_witness :
  exists rows,
    balBody (loadBalances plain_runtime (Body overflowing_balances) empty_page)
    = Some (Rows rows)
    /\ length rows = 2
    /\ (forall row, In row rows ->
          shows_nonfinite (app (rowFree row) (rowLocked row)) = false)
    /\ fmtPrice plain_runtime (Some (JNum infinity)) = Normal [SLocale infinity 2].
Proof.
  eexists. split; [reflexivity|].
  destruct (amounts_shown_are_finite plain_runtime (Body overflowing_balances) empty_page
              _ eq_refl) as (_ & Hall & _).
  split; [reflexivity|]. split; [exact Hall|reflexivity].
Defined.

(** ** The log *)

Ltac log_lines :=
  unfold stopBinanceUserStream, startBinanceUserStreamLive,
    ensureBinanceUserStreamStarted_call, onerror, onclose, onopen,
    connectUserStreamWS, closeUserStreamWS, keepalive_tick,
    startKeepalive, stopKeepalive, appendWsLog, setConnDot, fetch, ws_close,
    newWebSocket, clearTimer, setInterval, setTimeout, set_readyState;
  simpl;
  repeat (match goal with
          | |- context [match ?x with _ => _ end] => destruct x eqn:?
          end; simpl);
  solve [ exists []; split; [reflexivity|simpl; lia]
        | eexists [_]; split; [reflexivity|simpl; lia]
        | eexists [_; _]; split; [reflexivity|simpl; lia] ].

(** X15: no task of the manager (a start, a stop, a socket event, a timer
    that fires, a request that settles) takes a line out of the log or
    changes one: each leaves the lines that were there, below at most two
    new ones.  [clearWsLog], which nothing in these files calls, is the one
    writer that empties it. *)
Theorem log_only_grows
    (e : Event) (w w' : World)
    (Hstep : step e w = Some w') :
  exists new, wsLog w' = app new (wsLog w) /\ length new <= 2.
Proof.
  destruct e; simpl in Hstep.
  - simplify_eq. log_lines.
  - simplify_eq. log_lines.
  - destruct (fetches w !! f) as [[env|env]|] eqn:Hf; simplify_eq.
    + destruct (resume_cases env r (with_fetches (delete f (fetches w)) w))
        as [line [[_ ->]|[_ ->]]]; log_lines.
    + destruct (keepalive_resume_log env r (with_fetches (delete f (fetches w)) w))
        as [line ->]. log_lines.
  - repeat case_match; simplify_eq. log_lines.
  - repeat case_match; simplify_eq.
    destruct (onmessage _ ev w) as [w1|err] eqn:Hm; simpl; [|log_lines].
    apply onmessage_effect in Hm. destruct Hm; log_lines.
  - repeat case_match; simplify_eq. log_lines.
  - repeat case_match; simplify_eq; log_lines.
  - repeat case_match; simplify_eq; log_lines.
  - repeat case_match; simplify_eq. log_lines.
Qed.

Lemma log_only_grows_witness :
  exists w w',
    run [CallStartLive "testnet"] (initial false) = Some w
    /\ step (FetchDone 1 (Body ok_body)) w = Some w'
    /\ length (wsLog w) = 0
    /\ length (wsLog w') = 2.
Proof.
  destruct (run [CallStartLive "testnet"] (initial false)) as [w|] eqn:Hrun;
    [|vm_compute in Hrun; discriminate].
  destruct (step (FetchDone 1 (Body ok_body)) w) as [w'|] eqn:Hs;
    [|vm_compute in Hrun; injection Hrun as <-; vm_compute in Hs; discriminate].
  destruct (log_only_grows _ w w' Hs) as (new & Hnew & Hlen).
  exists w, w'. split_and!; try assumption; try reflexivity.
  - vm_compute in Hrun. injection Hrun as <-. reflexivity.
  - vm_compute in Hrun. injection Hrun as <-. vm_compute in Hs. injection Hs as <-.
    reflexivity.
Defined.

(** ** Two loads at once *)

Lemma loadBalances_resume_cases rt r p :
  (pageDot (loadBalances_resume rt r p) = green
   /\ balErr (loadBalances_resume rt r p) = balErr p
   /\ exists data, r = Body data /\ balances_ok data = true)
  \/ (loadBalances_resume rt r p = loadBalances_catch p
      /\ (r = Rejected \/ exists data, r = Body data /\ balances_ok data = false)).
Proof.
  destruct r as [|data]; simpl; [right; auto|].
  destruct (loadBalances_try_cases rt data p) as [(Hok & t & -> & _)|(Hno & e & ->)].
  - left. simpl. eauto.
  - right. eauto.
Qed.

(** X16: only the start of a call hides the banner; a load that succeeds
    leaves it as it finds it.  So when two calls are under way and the one
    that settles first fails, the success of the other ends with the
    indicator at ok and the failure banner still on the page. *)
Theorem overlapping_loads_keep_banner
    (rt : Runtime) (p : Page) (t : Table) (b : Banner)
    (r1 : FetchOutcome) (data : JValue)
    (Hbody : balBody p = Some t)
    (Hbanner : balErr p = Some b)
    (Hfails : pageDot (loadBalances rt r1 p) = red)
    (Hok : balances_ok data = true) :
  let started := fst (loadBalances_call (fst (loadBalances_call p))) in
  let settled := loadBalances_resume rt (Body data) (loadBalances_resume rt r1 started) in
  balErr started = Some (mkBanner false (bannerText b))
  /\ pageDot settled = green
  /\ balErr settled = Some (mkBanner true "Connection failed.")
  /\ balErr (loadBalances rt (Body data) settled)
     = Some (mkBanner false "Connection failed.").
Proof.
  intros started settled.
  destruct p as [err body dot]. simpl in Hbody, Hbanner. subst err body.
  set (p0 := mkPage (Some (mkBanner false (bannerText b))) (Some Checking) pending).
  assert (Hs : started = p0) by reflexivity.
  assert (Hf : pageDot (loadBalances_resume rt r1 p0) = red) by exact Hfails.
  clearbody started. subst started. clear Hfails.
  destruct (loadBalances_resume_cases rt r1 p0) as [(Hg & _)|(Hc & _)];
    [rewrite Hg in Hf; discriminate|].
  subst settled. rewrite Hc. clear Hc Hf.
  set (p1 := loadBalances_catch p0).
  assert (He1 : balErr p1 = Some (mkBanner true "Connection failed.")) by reflexivity.
  assert (Hb1 : balBody p1 = Some NoData) by reflexivity.
  clearbody p1.
  destruct (loadBalances_resume_cases rt (Body data) p1)
    as [(Hg & He & _)|(_ & [?|(d & [= <-] & Hd)])]; try discriminate; [|congruence].
  assert (Hb2 : exists t2, balBody (loadBalances_resume rt (Body data) p1) = Some t2).
  { cbn [loadBalances_resume].
    destruct (loadBalances_try_cases rt data p1)
      as [(_ & t2 & -> & _)|(Hno & _)]; [eauto|congruence]. }
  set (p2 := loadBalances_resume rt (Body data) p1) in *. clearbody p2.
  destruct Hb2 as [t2 Ht2].
  split_and!.
  - reflexivity.
  - exact Hg.
  - rewrite He. exact He1.
  - unfold loadBalances, loadBalances_call. rewrite Ht2. cbn [fst].
    set (p3 := mkPage (setVisible (balErr p2) false) (Some Checking) pending).
    destruct (loadBalances_resume_cases rt (Body data) p3)
      as [(_ & He3 & _)|(_ & [?|(d & [= <-] & Hd)])]; try discriminate; [|congruence].
    rewrite He3. subst p3. cbn [balErr]. rewrite He, He1. reflexivity.
Qed.

Lemma overlapping_loads_keep_banner_witness :
  let started := fst (loadBalances_call (fst (loadBalances_call empty_page))) in
  let settled :=
    loadBalances_resume plain_runtime (Body two_balances)
      (loadBalances_resume plain_runtime Rejected started) in
  pageDot settled = green
  /\ balErr settled = Some (mkBanner true "Connection failed.").
Proof.
  destruct (overlapping_loads_keep_banner plain_runtime empty_page NoData
              (mkBanner true "Connection failed.") Rejected two_balances
              eq_refl eq_refl eq_refl eq_refl) as (_ & Hg & Hb & _).
  split; assumption.
Defined.
